(** * python-basic: the sandbox HTTP responder of dev-process-tracker

    A shallow embedding of [sandbox/servers/python-basic/server.py] and the
    properties its specification states about it.

    Conventions of the model.
    - A Python [str] is a [string] with one character per code point, which
      covers the code points up to 255.  Every string the program builds is
      ASCII; the request line is decoded by [http.server] from ISO-8859-1,
      one character per octet.  A value of [PORT] with a code point above
      255 is outside the model.
    - [bytes] is [list byte].
    - A Python [int] is a [Z].
    - [os.environ] is a finite map from names to values.
    - The library under the handler is [http.server] of CPython 3.11:
      [handle_one_request], [parse_request], [send_error],
      [send_response], [send_header] and [end_headers] are transcribed from
      it, with the status line kept as its code.  The class leaves
      [protocol_version] at HTTP/1.0, so a connection carries one request.
    - [int(str)] has the interpreter's default limit of 4300 digits. *)

From Stdlib Require Import ZArith NArith String Ascii List Lia Bool.
From Stdlib.Strings Require Import Byte.
From stdpp Require Import base option strings gmap.

Local Open Scope string_scope.
Local Open Scope list_scope.
Local Open Scope Z_scope.

(** ** Python built-ins used by the server *)

Module Py.

Definition bytes := list Byte.byte.

Inductive exn :=
| ValueError
| OverflowError
| OSError.

(** *** [str(int)]: the decimal numeral of an integer *)

Definition digit_char (d : N) : ascii := ascii_of_N (48 + d).

(** Most significant digit first; [fuel] bounds the number of digits. *)
Fixpoint digits_aux (fuel : nat) (n : N) (acc : string) : string :=
  let acc' := String (digit_char (n mod 10)) acc in
  match fuel with
  | O => acc'
  | S f => if (n / 10 =? 0)%N then acc' else digits_aux f (n / 10) acc'
  end.

Definition digits (n : N) : string := digits_aux (N.size_nat n) n "".

Definition str_of_int (z : Z) : string :=
  match z with
  | Z0 => "0"
  | Zpos p => digits (Npos p)
  | Zneg p => String "-" (digits (Npos p))
  end.

(** [str(len(body))] *)
Definition str_of_nat (n : nat) : string := str_of_int (Z.of_nat n).

(** *** [int(str)], base 10 *)

Definition digit_val (c : ascii) : option N :=
  let n := N_of_ascii c in
  if ((48 <=? n) && (n <=? 57))%N then Some (n - 48)%N else None.

(** White space as [int] sees it: the ASCII white space of [Py_ISSPACE]
    and, above 127, the code points Unicode classes as white space. *)
Definition is_space (c : ascii) : bool :=
  let n := N_of_ascii c in
  ((9 <=? n) && (n <=? 13) || (n =? 32) || (n =? 133) || (n =? 160))%N.

Fixpoint lstrip (s : string) : string :=
  match s with
  | String c s' => if is_space c then lstrip s' else s
  | EmptyString => s
  end.

Fixpoint all_space (s : string) : bool :=
  match s with
  | String c s' => is_space c && all_space s'
  | EmptyString => true
  end.

(** The digit scan of the integer parser: digits with single underscores
    between them.  [prev_us] records that the previous character was an
    underscore.  Returns the value and the unread rest. *)
Fixpoint scan_digits (s : string) (prev_us : bool) (acc : N)
  : option (N * string) :=
  match s with
  | String c s' =>
      if Ascii.eqb c "_" then
        if prev_us then None else scan_digits s' true acc
      else
        match digit_val c with
        | Some d => scan_digits s' false (10 * acc + d)%N
        | None => if prev_us then None else Some (acc, s)
        end
  | EmptyString => if prev_us then None else Some (acc, s)
  end.

(** The digits in the run of digits and underscores the scan reads. *)
Fixpoint digit_count (s : string) : N :=
  match s with
  | String c s' =>
      if Ascii.eqb c "_" then digit_count s'
      else
        match digit_val c with
        | Some _ => N.succ (digit_count s')
        | None => 0%N
        end
  | EmptyString => 0%N
  end.

(** [sys.int_info.default_max_str_digits] *)
Definition max_str_digits : N := 4300.

(** The magnitude: at least one digit, no leading underscore, then only
    white space, and no more digits than the limit. *)
Definition parse_magnitude (s : string) : option N :=
  match s with
  | String c _ =>
      match digit_val c with
      | Some _ =>
          match scan_digits s false 0%N with
          | Some (n, rest) =>
              if all_space rest && (digit_count s <=? max_str_digits)%N
              then Some n else None
          | None => None
          end
      | None => None
      end
  | EmptyString => None
  end.

Definition int_of_str (s : string) : exn + Z :=
  let body := lstrip s in
  let '(neg, mag) :=
    match body with
    | String "-" r => (true, r)
    | String "+" r => (false, r)
    | _ => (false, body)
    end in
  match parse_magnitude mag with
  | Some n => inr (if neg : bool then - Z.of_N n else Z.of_N n)
  | None => inl ValueError
  end.

(** A string of decimal digits, and the number it denotes after the
    digits already read ([acc]). *)
Fixpoint is_digits (s : string) : bool :=
  match s with
  | String c s' => bool_decide (is_Some (digit_val c)) && is_digits s'
  | EmptyString => true
  end.

Fixpoint dvalue (s : string) (acc : N) : N :=
  match s with
  | String c s' => dvalue s' (10 * acc + default 0%N (digit_val c))%N
  | EmptyString => acc
  end.

(** A string of code points below 128. *)
Fixpoint all_ascii (s : string) : bool :=
  match s with
  | String c s' => (N_of_ascii c <? 128)%N && all_ascii s'
  | EmptyString => true
  end.

(** *** [str.encode('utf-8')] and its inverse on the modelled code points *)

Definition encode_char (c : ascii) : bytes :=
  let n := N_of_ascii c in
  if (n <? 128)%N then [byte_of_ascii c]
  else [byte_of_ascii (ascii_of_N (192 + n / 64));
        byte_of_ascii (ascii_of_N (128 + n mod 64))].

Fixpoint encode_utf8 (s : string) : bytes :=
  match s with
  | String c s' => (encode_char c ++ encode_utf8 s')%list
  | EmptyString => []
  end.

Fixpoint decode_utf8 (b : bytes) : option string :=
  match b with
  | [] => Some ""
  | x :: b' =>
      let n := Byte.to_N x in
      if (n <? 128)%N then String (ascii_of_byte x) <$> decode_utf8 b'
      else
        match b' with
        | y :: b'' =>
            let m := Byte.to_N y in
            if ((194 <=? n) && (n <=? 195) && (128 <=? m) && (m <=? 191))%N
            then String (ascii_of_N ((n - 192) * 64 + (m - 128)))
                   <$> decode_utf8 b''
            else None
        | [] => None
        end
  end.

(** *** The [%] operator on strings

    For the conversions [%s], [%d] and [%%]; an argument is given as the
    text its conversion prints. *)

Fixpoint percent_format (fmt : string) (args : list string) : string :=
  match fmt with
  | String "%" (String "s" r) | String "%" (String "d" r) =>
      match args with
      | a :: args' => a +:+ percent_format r args'
      | [] => percent_format r []
      end
  | String "%" (String "%" r) => String "%" (percent_format r args)
  | String c r => String c (percent_format r args)
  | EmptyString => ""
  end.

(** *** String methods the library uses *)

(** [str.isspace] on one character. *)
Definition is_unicode_space (c : ascii) : bool :=
  let n := N_of_ascii c in
  ((9 <=? n) && (n <=? 13) || (28 <=? n) && (n <=? 32)
   || (n =? 133) || (n =? 160))%N.

(** [s.split()]: the words between runs of white space.  [cur] is the
    word being read. *)
Fixpoint split_go (cur : string) (s : string) : list string :=
  match s with
  | String c s' =>
      if is_unicode_space c then
        match cur with
        | EmptyString => split_go "" s'
        | _ => cur :: split_go "" s'
        end
      else split_go (cur +:+ String c "") s'
  | EmptyString =>
      match cur with
      | EmptyString => []
      | _ => [cur]
      end
  end.

Definition split (s : string) : list string := split_go "" s.

(** [s.split(sep)] for a one-character separator: empty parts are kept. *)
Fixpoint split_on_go (sep : ascii) (cur : string) (s : string) : list string :=
  match s with
  | String c s' =>
      if Ascii.eqb c sep then cur :: split_on_go sep "" s'
      else split_on_go sep (cur +:+ String c "") s'
  | EmptyString => [cur]
  end.

Definition split_on (sep : ascii) (s : string) : list string :=
  split_on_go sep "" s.

(** [s.rstrip('\r\n')] *)
Fixpoint rstrip_crlf (s : string) : string :=
  match s with
  | String c s' =>
      match rstrip_crlf s' with
      | EmptyString =>
          if Ascii.eqb c "013" || Ascii.eqb c "010" then ""
          else String c ""
      | r => String c r
      end
  | EmptyString => ""
  end.

(** [s.lstrip('/')] *)
Fixpoint lstrip_slash (s : string) : string :=
  match s with
  | String "/" s' => lstrip_slash s'
  | _ => s
  end.

(** [s.startswith(p)] *)
Definition startswith (p s : string) : bool := String.prefix p s.

(** [repr(s)]: the quote is the single one unless the string has a single
    quote and no double one; code points that are not printable are
    written in hexadecimal. *)
Definition is_printable (c : ascii) : bool :=
  let n := N_of_ascii c in
  ((32 <=? n) && (n <=? 126) || (161 <=? n) && (n <=? 172)
   || (174 <=? n))%N.

Definition hex_digit (d : N) : ascii :=
  if (d <? 10)%N then ascii_of_N (48 + d) else ascii_of_N (87 + d).

Definition repr_char (quote c : ascii) : string :=
  if Ascii.eqb c quote || Ascii.eqb c "\" then String "\" (String c "")
  else if Ascii.eqb c "009" then "\t"
  else if Ascii.eqb c "010" then "\n"
  else if Ascii.eqb c "013" then "\r"
  else if is_printable c then String c ""
  else
    let n := N_of_ascii c in
    String "\" (String "x"
      (String (hex_digit (n / 16)) (String (hex_digit (n mod 16)) ""))).

Fixpoint contains (c : ascii) (s : string) : bool :=
  match s with
  | String c' s' => Ascii.eqb c c' || contains c s'
  | EmptyString => false
  end.

Fixpoint repr_body (quote : ascii) (s : string) : string :=
  match s with
  | String c s' => repr_char quote c +:+ repr_body quote s'
  | EmptyString => ""
  end.

Definition repr (s : string) : string :=
  let quote : ascii :=
    if contains "'" s && negb (contains "034" s) then "034"%char
    else "'"%char in
  String quote (repr_body quote s +:+ String quote "").

(** [html.escape(s, quote=False)] *)
Fixpoint html_escape (s : string) : string :=
  match s with
  | String "&" s' => "&amp;" +:+ html_escape s'
  | String "<" s' => "&lt;" +:+ html_escape s'
  | String ">" s' => "&gt;" +:+ html_escape s'
  | String c s' => String c (html_escape s')
  | EmptyString => ""
  end.

End Py.

(** ** The [json] module: values, [json.dumps], and a reference decoder *)

Module Json.

(** The values [json.dumps] is applied to.  A [dict] keeps its insertion
    order, so an object is an association list. *)
#[local] Unset Elimination Schemes.
Inductive json :=
| JNull
| JBool (b : bool)
| JInt (z : Z)
| JStr (s : string)
| JArr (l : list json)
| JObj (m : list (string * json)).
#[local] Set Elimination Schemes.

Definition hex_char (d : N) : ascii :=
  if (d <? 10)%N then ascii_of_N (48 + d) else ascii_of_N (87 + d).

(** ['\\u{0:04x}'.format(n)] for a code point below 256. *)
Definition u_escape (n : N) : string :=
  String "\" (String "u" (String "0" (String "0"
    (String (hex_char (n / 16)) (String (hex_char (n mod 16)) ""))))).

(** [ESCAPE_DCT] and the fallback of [py_encode_basestring_ascii]:
    everything outside the printable ASCII range is escaped. *)
Definition escape_char (c : ascii) : string :=
  match c with
  | "\"%char => "\\"
  | "034"%char => String "\" (String "034" "")
  | "008"%char => "\b"
  | "012"%char => "\f"
  | "010"%char => "\n"
  | "013"%char => "\r"
  | "009"%char => "\t"
  | _ =>
      let n := N_of_ascii c in
      if ((32 <=? n) && (n <=? 126))%N then String c "" else u_escape n
  end.

Fixpoint escape (s : string) : string :=
  match s with
  | String c s' => escape_char c +:+ escape s'
  | EmptyString => ""
  end.

Definition encode_basestring_ascii (s : string) : string :=
  String "034" (escape s +:+ String "034" "").

(** [json.dumps] with its default separators [", "] and [": "]. *)
Fixpoint dumps (v : json) : string :=
  match v with
  | JNull => "null"
  | JBool true => "true"
  | JBool false => "false"
  | JInt z => Py.str_of_int z
  | JStr s => encode_basestring_ascii s
  | JArr l =>
      "[" +:+
      (fix items (l : list json) : string :=
         match l with
         | [] => ""
         | x :: l' =>
             match l' with
             | [] => dumps x
             | _ :: _ => dumps x +:+ ", " +:+ items l'
             end
         end) l +:+ "]"
  | JObj m =>
      "{" +:+
      (fix members (m : list (string * json)) : string :=
         match m with
         | [] => ""
         | (k, x) :: m' =>
             let item := encode_basestring_ascii k +:+ ": " +:+ dumps x in
             match m' with
             | [] => item
             | _ :: _ => item +:+ ", " +:+ members m'
             end
         end) m +:+ "}"
  end.

(** *** Reference decoder

    What a conformant client does with the body: a decoder for JSON text
    over integers, strings, booleans, null, arrays and objects.  Numbers
    with a fraction or an exponent are outside it. *)

Definition is_ws (c : ascii) : bool :=
  match c with
  | " "%char | "009"%char | "010"%char | "013"%char => true
  | _ => false
  end.

Fixpoint skip_ws (s : string) : string :=
  match s with
  | String c s' => if is_ws c then skip_ws s' else s
  | EmptyString => s
  end.

Definition hex_val (c : ascii) : option N :=
  let n := N_of_ascii c in
  if ((48 <=? n) && (n <=? 57))%N then Some (n - 48)%N
  else if ((97 <=? n) && (n <=? 102))%N then Some (n - 87)%N
  else if ((65 <=? n) && (n <=? 70))%N then Some (n - 55)%N
  else None.

Definition unescape (e : ascii) : option ascii :=
  match e with
  | "034"%char => Some "034"%char
  | "\"%char => Some "\"%char
  | "/"%char => Some "/"%char
  | "b"%char => Some "008"%char
  | "f"%char => Some "012"%char
  | "n"%char => Some "010"%char
  | "r"%char => Some "013"%char
  | "t"%char => Some "009"%char
  | _ => None
  end.

(** The characters of a string literal after its opening quote, up to
    and without the closing quote; and the unread rest. *)
Fixpoint parse_string (s : string) : option (string * string) :=
  match s with
  | EmptyString => None
  | String "034" r => Some ("", r)
  | String "\" (String "u" (String a (String b (String c (String d r))))) =>
      match hex_val a, hex_val b, hex_val c, hex_val d with
      | Some 0%N, Some 0%N, Some x, Some y =>
          '(t, r') ← parse_string r;
          Some (String (ascii_of_N (16 * x + y)) t, r')
      | _, _, _, _ => None
      end
  | String "\" (String e r) =>
      ch ← unescape e;
      '(t, r') ← parse_string r;
      Some (String ch t, r')
  | String c r =>
      if (N_of_ascii c <? 32)%N then None
      else '(t, r') ← parse_string r; Some (String c t, r')
  end.

Fixpoint take_digits (s : string) (acc : N) : N * string :=
  match s with
  | String c s' =>
      match Py.digit_val c with
      | Some d => take_digits s' (10 * acc + d)%N
      | None => (acc, s)
      end
  | EmptyString => (acc, s)
  end.

Definition starts_fraction (s : string) : bool :=
  match s with
  | String "." _ | String "e" _ | String "E" _ => true
  | _ => false
  end.

(** What may follow an integer: no further digit, no fraction. *)
Definition ends_number (s : string) : bool :=
  match s with
  | String c _ =>
      bool_decide (Py.digit_val c = None) && negb (starts_fraction s)
  | EmptyString => true
  end.

(** [0] or a non-zero digit followed by digits. *)
Definition parse_nat (s : string) : option (N * string) :=
  match s with
  | String "0" r => if starts_fraction r then None else Some (0%N, r)
  | String c _ =>
      match Py.digit_val c with
      | Some _ =>
          let '(n, r) := take_digits s 0%N in
          if starts_fraction r then None else Some (n, r)
      | None => None
      end
  | EmptyString => None
  end.

Definition parse_int (s : string) : option (Z * string) :=
  match s with
  | String "-" r => '(n, r') ← parse_nat r; Some (- Z.of_N n, r')
  | _ => '(n, r') ← parse_nat s; Some (Z.of_N n, r')
  end.

Fixpoint parse_value (fuel : nat) (s : string) {struct fuel}
  : option (json * string) :=
  match fuel with
  | O => None
  | S f =>
      match skip_ws s with
      | String "n" (String "u" (String "l" (String "l" r))) =>
          Some (JNull, r)
      | String "t" (String "r" (String "u" (String "e" r))) =>
          Some (JBool true, r)
      | String "f" (String "a" (String "l" (String "s" (String "e" r)))) =>
          Some (JBool false, r)
      | String "034" r =>
          '(t, r') ← parse_string r; Some (JStr t, r')
      | String "[" r =>
          match skip_ws r with
          | String "]" r' => Some (JArr [], r')
          | r1 => '(l, r') ← parse_elements f r1; Some (JArr l, r')
          end
      | String "{" r =>
          match skip_ws r with
          | String "}" r' => Some (JObj [], r')
          | r1 => '(m, r') ← parse_members f r1; Some (JObj m, r')
          end
      | s1 => '(z, r) ← parse_int s1; Some (JInt z, r)
      end
  end
with parse_elements (fuel : nat) (s : string) {struct fuel}
  : option (list json * string) :=
  match fuel with
  | O => None
  | S f =>
      '(v, r) ← parse_value f s;
      match skip_ws r with
      | String "," r' => '(l, r'') ← parse_elements f r'; Some (v :: l, r'')
      | String "]" r' => Some ([v], r')
      | _ => None
      end
  end
with parse_members (fuel : nat) (s : string) {struct fuel}
  : option (list (string * json) * string) :=
  match fuel with
  | O => None
  | S f =>
      match skip_ws s with
      | String "034" r =>
          '(k, r1) ← parse_string r;
          match skip_ws r1 with
          | String ":" r2 =>
              '(v, r3) ← parse_value f r2;
              match skip_ws r3 with
              | String "," r4 =>
                  '(m, r5) ← parse_members f r4; Some ((k, v) :: m, r5)
              | String "}" r4 => Some ([(k, v)], r4)
              | _ => None
              end
          | _ => None
          end
      | _ => None
      end
  end.

(** [json.loads]: one value, then only white space. *)
Definition loads (s : string) : option json :=
  '(v, r) ← parse_value (S (String.length s)) s;
  match skip_ws r with
  | EmptyString => Some v
  | _ => None
  end.

End Json.

(** ** [http.server]: [BaseHTTPRequestHandler] *)

Module Http.

(** What a handler puts on the connection, in the order it is written. *)
Inductive wire :=
| StatusLine (code : Z)
| Header (keyword value : string)
| EndHeaders
| Data (b : Py.bytes).

(** What a client sends on one connection. *)
Record connection := {
  raw_requestline : string;    (** the first line, as [readline] returns it *)
  header_lines : list string;  (** the lines [readline] returns after it *)
  clock : string;              (** [date_time_string()] when it is answered *)
}.

(** A GET request as [do_GET] finds it. *)
Record request := {
  requestline : string;  (** the request line, without its line ending *)
  target : string;       (** its second word: the path as it was sent *)
  version : string;      (** its third word, HTTP/0.9 when it has none *)
  now : string;          (** [date_time_string()] when it is answered *)
}.

(** The handler instance that serves one connection. *)
Record handler := {
  command : option string;      (** [self.command] *)
  path : string;                (** [self.path] *)
  request_version : string;     (** [self.request_version] *)
  line : string;                (** [self.requestline] *)
  version_string : string;      (** [self.version_string()] *)
  date_time_string : string;    (** [self.date_time_string()] *)
  headers_buffer : list wire;   (** [self._headers_buffer] *)
  wfile : list wire;            (** written to the connection *)
  stdout : list string;         (** lines printed while serving *)
}.

Definition H (A : Type) : Type := handler → A * handler.

#[export] Instance H_ret : MRet H := λ A a h, (a, h).
#[export] Instance H_bind : MBind H :=
  λ A B f m h, let '(a, h') := m h in f a h'.

Definition self : H handler := λ h, (h, h).

Definition modify (f : handler → handler) : H unit := λ h, (tt, f h).

(** Assignments to the attributes of the request. *)
Definition set_command (c : option string) : H unit :=
  modify (λ h,
    {| command := c; path := path h; request_version := request_version h;
       line := line h; version_string := version_string h;
       date_time_string := date_time_string h;
       headers_buffer := headers_buffer h; wfile := wfile h;
       stdout := stdout h |}).

Definition set_path (p : string) : H unit :=
  modify (λ h,
    {| command := command h; path := p; request_version := request_version h;
       line := line h; version_string := version_string h;
       date_time_string := date_time_string h;
       headers_buffer := headers_buffer h; wfile := wfile h;
       stdout := stdout h |}).

Definition set_request_version (v : string) : H unit :=
  modify (λ h,
    {| command := command h; path := path h; request_version := v;
       line := line h; version_string := version_string h;
       date_time_string := date_time_string h;
       headers_buffer := headers_buffer h; wfile := wfile h;
       stdout := stdout h |}).

Definition set_requestline (l : string) : H unit :=
  modify (λ h,
    {| command := command h; path := path h;
       request_version := request_version h;
       line := l; version_string := version_string h;
       date_time_string := date_time_string h;
       headers_buffer := headers_buffer h; wfile := wfile h;
       stdout := stdout h |}).

Definition buffer (w : wire) : H unit :=
  modify (λ h,
    {| command := command h; path := path h;
       request_version := request_version h;
       line := line h; version_string := version_string h;
       date_time_string := date_time_string h;
       headers_buffer := headers_buffer h ++ [w];
       wfile := wfile h; stdout := stdout h |}).

(** [print]: its arguments joined by one space, one line. *)
Definition print (args : list string) : H unit :=
  modify (λ h,
    {| command := command h; path := path h;
       request_version := request_version h;
       line := line h; version_string := version_string h;
       date_time_string := date_time_string h;
       headers_buffer := headers_buffer h; wfile := wfile h;
       stdout := stdout h ++ [String.concat " " args] |}).

(** The status line, the headers and the blank line are written only for
    a request whose version is not HTTP/0.9. *)
Definition versioned (h : handler) : bool :=
  negb (String.eqb (request_version h) "HTTP/0.9").

Definition send_response_only (code : Z) : H unit :=
  h ← self;
  if versioned h then buffer (StatusLine code) else mret tt.

Definition send_header (keyword value : string) : H unit :=
  h ← self;
  if versioned h then buffer (Header keyword value) else mret tt.

Definition flush_headers : H unit :=
  modify (λ h,
    {| command := command h; path := path h;
       request_version := request_version h;
       line := line h; version_string := version_string h;
       date_time_string := date_time_string h;
       headers_buffer := [];
       wfile := wfile h ++ headers_buffer h; stdout := stdout h |}).

Definition end_headers : H unit :=
  h ← self;
  if versioned h then buffer EndHeaders;; flush_headers else mret tt.

Definition wfile_write (b : Py.bytes) : H unit :=
  modify (λ h,
    {| command := command h; path := path h;
       request_version := request_version h;
       line := line h; version_string := version_string h;
       date_time_string := date_time_string h;
       headers_buffer := headers_buffer h;
       wfile := wfile h ++ [Data b]; stdout := stdout h |}).

(** The members of [HTTPStatus] the library answers with on its own. *)
Inductive HTTPStatus :=
| BAD_REQUEST
| REQUEST_URI_TOO_LONG
| REQUEST_HEADER_FIELDS_TOO_LARGE
| NOT_IMPLEMENTED
| HTTP_VERSION_NOT_SUPPORTED.

Definition value (s : HTTPStatus) : Z :=
  match s with
  | BAD_REQUEST => 400
  | REQUEST_URI_TOO_LONG => 414
  | REQUEST_HEADER_FIELDS_TOO_LARGE => 431
  | NOT_IMPLEMENTED => 501
  | HTTP_VERSION_NOT_SUPPORTED => 505
  end.

(** [self.responses[code]]: the phrase and the description. *)
Definition responses (s : HTTPStatus) : string * string :=
  match s with
  | BAD_REQUEST =>
      ("Bad Request", "Bad request syntax or unsupported method")
  | REQUEST_URI_TOO_LONG => ("Request-URI Too Long", "URI is too long")
  | REQUEST_HEADER_FIELDS_TOO_LARGE =>
      ("Request Header Fields Too Large",
       "The server is unwilling to process the request because its header "
         +:+ "fields are too large")
  | NOT_IMPLEMENTED =>
      ("Not Implemented", "Server does not support this operation")
  | HTTP_VERSION_NOT_SUPPORTED =>
      ("HTTP Version Not Supported", "Cannot fulfill request")
  end.

(** [DEFAULT_ERROR_MESSAGE % {'code': ..., 'message': ..., 'explain': ...}];
    the status prints as its number under both [%(code)d] and
    [%(code)s]. *)
Definition error_message_format (code message explain : string) : string :=
  let nl := String "010" "" in
  let q := String "034" "" in
  "<!DOCTYPE HTML>" +:+ nl
  +:+ "<html lang=" +:+ q +:+ "en" +:+ q +:+ ">" +:+ nl
  +:+ "    <head>" +:+ nl
  +:+ "        <meta charset=" +:+ q +:+ "utf-8" +:+ q +:+ ">" +:+ nl
  +:+ "        <title>Error response</title>" +:+ nl
  +:+ "    </head>" +:+ nl
  +:+ "    <body>" +:+ nl
  +:+ "        <h1>Error response</h1>" +:+ nl
  +:+ "        <p>Error code: " +:+ code +:+ "</p>" +:+ nl
  +:+ "        <p>Message: " +:+ message +:+ ".</p>" +:+ nl
  +:+ "        <p>Error code explanation: " +:+ code +:+ " - " +:+ explain
  +:+ ".</p>" +:+ nl
  +:+ "    </body>" +:+ nl
  +:+ "</html>" +:+ nl.

Definition error_content_type : string := "text/html;charset=utf-8".

(** [_read_headers]: what reading the header lines raises, if anything. *)
Inductive header_fault :=
| LineTooLong
| TooManyHeaders.

Fixpoint read_header_lines (lines : list string) (read : nat)
  : option header_fault :=
  match lines with
  | l :: rest =>
      if (65536 <? N.of_nat (String.length l))%N then Some LineTooLong
      else if (100 <? N.of_nat (S read))%N then Some TooManyHeaders
      else if String.eqb l (String "013" (String "010" ""))
              || String.eqb l (String "010" "") || String.eqb l ""
      then None
      else read_header_lines rest (S read)
  | [] => if (100 <? N.of_nat (S read))%N then Some TooManyHeaders else None
  end.

(** [version_number]: the two integers of a version word and the text
    after its slash, or nothing where the library raises [ValueError]. *)
Definition version_number (version : string) : option (Z * Z * string) :=
  if Py.startswith "HTTP/" version then
    let base := String.substring 5 (String.length version - 5) version in
    match Py.split_on "." base with
    | [a; b] =>
        match Py.int_of_str a, Py.int_of_str b with
        | inr major, inr minor => Some (major, minor, base)
        | _, _ => None
        end
    | _ => None
    end
  else None.

(** The path [do_GET] sees: leading slashes are reduced to one. *)
Definition request_path (target : string) : string :=
  if Py.startswith "//" target then "/" +:+ Py.lstrip_slash target
  else target.

Section Overridable.

(** [log_message] is the method a handler class overrides; [method name]
    is [getattr(self, name)] for the [do_] methods the class defines. *)
Variable log_message : string → list string → H unit.
Variable method : string → option (H unit).

Definition log_request (code : Z) : H unit :=
  h ← self;
  log_message (String "034" ("%s" +:+ String "034" " %s %s"))
              [line h; Py.str_of_int code; "-"].

Definition log_error (format : string) (args : list string) : H unit :=
  log_message format args.

Definition send_response (code : Z) : H unit :=
  log_request code;;
  send_response_only code;;
  h ← self;
  send_header "Server" (version_string h);;
  send_header "Date" (date_time_string h).

Definition send_error (code : HTTPStatus) (message explain : option string)
  : H unit :=
  let '(shortmsg, longmsg) := responses code in
  let message := default shortmsg message in
  let explain := default longmsg explain in
  log_error "code %d, message %s" [Py.str_of_int (value code); message];;
  send_response (value code);;
  send_header "Connection" "close";;
  let body :=
    if (200 <=? value code)
       && negb (bool_decide (value code ∈ [204; 205; 304]))
    then Some (Py.encode_utf8
                 (error_message_format (Py.str_of_int (value code))
                    (Py.html_escape message) (Py.html_escape explain)))
    else None in
  match body with
  | Some b =>
      send_header "Content-Type" error_content_type;;
      send_header "Content-Length" (Py.str_of_nat (length b))
  | None => mret tt
  end;;
  end_headers;;
  h ← self;
  match body with
  | Some ((_ :: _) as b) =>
      if bool_decide (command h = Some "HEAD") then mret tt
      else wfile_write b
  | _ => mret tt
  end.

Definition parse_request (raw : string) (lines : list string) : H bool :=
  set_command None;;
  set_request_version "HTTP/0.9";;
  let requestline := Py.rstrip_crlf raw in
  set_requestline requestline;;
  let words := Py.split requestline in
  if bool_decide (length words = 0%nat) then mret false else
  known ←
    (if bool_decide (3 <= length words)%nat then
       let version := List.last words "" in
       match version_number version with
       | None =>
           send_error BAD_REQUEST
             (Some ("Bad request version (" +:+ Py.repr version +:+ ")"))
             None;;
           mret false
       | Some (major, minor, base) =>
           if (2 <? major) || (major =? 2) && (0 <=? minor) then
             send_error HTTP_VERSION_NOT_SUPPORTED
               (Some ("Invalid HTTP version (" +:+ base +:+ ")")) None;;
             mret false
           else set_request_version version;; mret true
       end
     else mret true);
  if negb known then mret false else
  match words with
  | [command; path] | [command; path; _] =>
      if bool_decide (length words = 2%nat)
         && negb (String.eqb command "GET") then
        send_error BAD_REQUEST
          (Some ("Bad HTTP/0.9 request type (" +:+ Py.repr command +:+ ")"))
          None;;
        mret false
      else
        set_command (Some command);;
        set_path (request_path path);;
        match read_header_lines lines 0 with
        | Some LineTooLong =>
            send_error REQUEST_HEADER_FIELDS_TOO_LARGE
              (Some "Line too long")
              (Some "got more than 65536 bytes when reading header line");;
            mret false
        | Some TooManyHeaders =>
            send_error REQUEST_HEADER_FIELDS_TOO_LARGE
              (Some "Too many headers") (Some "got more than 100 headers");;
            mret false
        | None => mret true
        end
  | _ =>
      send_error BAD_REQUEST
        (Some ("Bad request syntax (" +:+ Py.repr requestline +:+ ")")) None;;
      mret false
  end.

Definition handle_one_request (c : connection) : H unit :=
  if (65536 <? N.of_nat (String.length (raw_requestline c)))%N then
    set_requestline "";;
    set_request_version "";;
    set_command (Some "");;
    send_error REQUEST_URI_TOO_LONG None None
  else if String.eqb (raw_requestline c) "" then mret tt
  else
    parsed ← parse_request (raw_requestline c) (header_lines c);
    if negb parsed then mret tt else
    h ← self;
    match command h with
    | Some name =>
        match method ("do_" +:+ name) with
        | Some run => run
        | None =>
            send_error NOT_IMPLEMENTED
              (Some ("Unsupported method (" +:+ Py.repr name +:+ ")")) None
        end
    | None => mret tt
    end.

End Overridable.

(** The response a client reads off the connection; a request of version
    HTTP/0.9 is answered with the body alone. *)
Record response := {
  status : option Z;
  headers : list (string * string);
  body : Py.bytes;
}.

Fixpoint read_body (w : list wire) : option Py.bytes :=
  match w with
  | [] => Some []
  | Data b :: w' => app b <$> read_body w'
  | _ => None
  end.

Fixpoint read_headers (w : list wire)
  : option (list (string * string) * Py.bytes) :=
  match w with
  | Header k v :: w' =>
      '(hs, b) ← read_headers w'; Some ((k, v) :: hs, b)
  | EndHeaders :: w' => b ← read_body w'; Some ([], b)
  | _ => None
  end.

Definition read_response (w : list wire) : option response :=
  match w with
  | StatusLine code :: w' =>
      '(hs, b) ← read_headers w';
      Some {| status := Some code; headers := hs; body := b |}
  | _ =>
      b ← read_body w;
      Some {| status := None; headers := []; body := b |}
  end.

(** The status codes a handler has put on the connection. *)
Definition status_codes (w : list wire) : list Z :=
  omap (λ x, match x with StatusLine code => Some code | _ => None end) w.

(** The first header of the given name. *)
Fixpoint lookup_header (k : string) (hs : list (string * string))
  : option string :=
  match hs with
  | [] => None
  | (k', v) :: hs' => if String.eqb k k' then Some v else lookup_header k hs'
  end.

Definition header (k : string) (r : response) : option string :=
  lookup_header k (headers r).

End Http.

(** ** [server.py] *)

Module Server.

Import Http Json.

(** The operating system side of a run. *)
Record host := {
  environ : gmap string string;  (** [os.environ] *)
  python : string;               (** the [Server] header of this Python *)
  can_bind : Z → bool;            (** the port is free and permitted *)
}.

(** [PORT = int(os.environ.get('PORT', '3300'))] *)
Definition PORT (environ : gmap string string) : Py.exn + Z :=
  Py.int_of_str (default "3300" (environ !! "PORT")).

Module Handler.

(** [health] is the object [do_GET] serialises. *)
Definition health (PORT : Z) : json :=
  JObj [("ok", JBool true);
        ("service", JStr "python-basic");
        ("port", JInt PORT)].

Definition log_message (format : string) (args : list string) : H unit :=
  print ["[python-basic]"; Py.percent_format format args].

(** [do_GET] calls the methods it inherits, which log through its own
    [log_message]. *)
Definition do_GET (PORT : Z) : H unit :=
  h ← self;
  if decide (path h = "/health") then
    let body := Py.encode_utf8 (dumps (health PORT)) in
    send_response log_message 200;;
    send_header "Content-Type" "application/json";;
    send_header "Content-Length" (Py.str_of_nat (length body));;
    end_headers;;
    wfile_write body
  else
    let body :=
      Py.encode_utf8
        ("python-basic running on " +:+ Py.str_of_int PORT
           +:+ String "010" "") in
    send_response log_message 200;;
    send_header "Content-Type" "text/plain";;
    send_header "Content-Length" (Py.str_of_nat (length body));;
    end_headers;;
    wfile_write body.

(** [getattr(self, name)] for the [do_] methods of the class. *)
Definition method (PORT : Z) (name : string) : option (H unit) :=
  if String.eqb name "do_GET" then Some (do_GET PORT) else None.

End Handler.

(** What a run of the process does, in order. *)
Inductive event :=
| Bound (address : string) (port : Z)
| Printed (line : string)
| Answered (w : list wire).

(** A process step: the events so far, then an exception or a value. *)
Definition Proc (A : Type) : Type := list event * (Py.exn + A).

#[export] Instance Proc_ret : MRet Proc := λ A a, ([], inr a).
#[export] Instance Proc_bind : MBind Proc :=
  λ A B f m,
    match m with
    | (t, inl e) => (t, inl e)
    | (t, inr a) => let '(t', r) := f a in (t ++ t', r)
    end.

Definition emit (e : event) : Proc unit := ([e], inr tt).
Definition raise {A} (e : Py.exn) : Proc A := ([], inl e).
Definition lift {A} (r : Py.exn + A) : Proc A := ([], r).

(** [HTTPServer((address, port), Handler)]: bind and listen. *)
Definition HTTPServer (os : host) (address : string) (port : Z) : Proc unit :=
  if negb ((0 <=? port) && (port <=? 65535)) then raise Py.OverflowError
  else if can_bind os port then emit (Bound address port)
  else raise Py.OSError.

(** The handler instance of a connection, before its request is read. *)
Definition blank (os : host) (date : string) : handler :=
  {| command := None; path := ""; request_version := ""; line := "";
     version_string := python os;
     date_time_string := date;
     headers_buffer := []; wfile := []; stdout := [] |}.

(** One connection: a new handler instance reads the request and
    dispatches it. *)
Definition handle_one_request (os : host) (PORT : Z) (c : connection)
  : handler :=
  snd (Http.handle_one_request Handler.log_message (Handler.method PORT) c
         (blank os (clock c))).

Definition handle_request (os : host) (PORT : Z) (c : connection)
  : Proc unit :=
  let h := handle_one_request os PORT c in
  (map Printed (stdout h) ++ [Answered (wfile h)], inr tt).

(** [serve_forever] over the connections that arrive. *)
Fixpoint serve_forever (os : host) (PORT : Z) (cs : list connection)
  : Proc unit :=
  match cs with
  | [] => mret tt
  | c :: cs' => handle_request os PORT c;; serve_forever os PORT cs'
  end.

(** The module body and the [__main__] block. *)
Definition main (os : host) (cs : list connection) : Proc unit :=
  PORT ← lift (PORT (environ os));
  HTTPServer os "0.0.0.0" PORT;;
  emit (Printed ("[python-basic] listening on http://localhost:"
                   +:+ Py.str_of_int PORT));;
  serve_forever os PORT cs.

(** The handler instance when [do_GET] is called for a GET request. *)
Definition fresh (os : host) (r : request) : handler :=
  {| command := Some "GET";
     path := request_path (target r);
     request_version := version r;
     line := requestline r;
     version_string := python os;
     date_time_string := now r;
     headers_buffer := []; wfile := []; stdout := [] |}.

Definition handle (os : host) (PORT : Z) (r : request) : handler :=
  snd (Handler.do_GET PORT (fresh os r)).

(** The response to one GET request. *)
Definition respond (os : host) (PORT : Z) (r : request) : option response :=
  read_response (wfile (handle os PORT r)).

End Server.

(** ** What the specification expects on the wire *)

Module Spec.

Import Http Json Server.

Definition quoted (s : string) : string :=
  String "034" (s +:+ String "034" "").

(** *** Decimal numerals, read without the code's own conversions *)

(** The value of a digit: its place among the ten digits. *)
Definition digit_of (c : ascii) : option Z :=
  Z.of_nat <$> String.index 0 (String c "") "0123456789".

(** The number a string of digits denotes, after the digits read so far. *)
Fixpoint natural_value (s : string) (acc : Z) : option Z :=
  match s with
  | String c s' => d ← digit_of c; natural_value s' (10 * acc + d)
  | EmptyString => Some acc
  end.

(** Not empty, and no leading zero but in [0] itself. *)
Definition canonical (s : string) : bool :=
  match s with
  | EmptyString => false
  | String "0" EmptyString => true
  | String "0" _ => false
  | String _ _ => true
  end.

(** [s] is the decimal numeral of [z]: its digits, most significant
    first, after a minus sign when [z] is negative. *)
Definition is_numeral (z : Z) (s : string) : bool :=
  match s with
  | String "-" ds =>
      (z <? 0) && canonical ds && bool_decide (natural_value ds 0 = Some (- z))
  | _ => canonical s && bool_decide (natural_value s 0 = Some z)
  end.

(** The octets of an ASCII text. *)
Definition octets (s : string) : Py.bytes := list_byte_of_string s.

(** *** The two bodies *)

(** The reference health body for port [P], fields in the order
    [ok], [service], [port]. *)
Definition health_text (P : Z) : string :=
  "{" +:+ quoted "ok" +:+ ": true, "
      +:+ quoted "service" +:+ ": " +:+ quoted "python-basic" +:+ ", "
      +:+ quoted "port" +:+ ": " +:+ Py.str_of_int P +:+ "}".

Definition plain_text (P : Z) : string :=
  "python-basic running on " +:+ Py.str_of_int P +:+ String "010" "".

Definition health_body (P : Z) : Py.bytes := Py.encode_utf8 (health_text P).
Definition plain_body (P : Z) : Py.bytes := Py.encode_utf8 (plain_text P).

(** *** Answers *)

(** A request line with a version other than HTTP/0.9 is answered in
    full; one without gets the body alone. *)
Definition in_full (r : request) : bool :=
  negb (String.eqb (version r) "HTTP/0.9").

(** The answer of [do_GET] on the wire: the status line, the headers of
    the library, the two headers of the handler, the end of the headers,
    the body. *)
Definition answer (os : host) (r : request) (type : string) (b : Py.bytes)
  : list wire :=
  if in_full r then
    [StatusLine 200;
     Header "Server" (python os);
     Header "Date" (now r);
     Header "Content-Type" type;
     Header "Content-Length" (Py.str_of_nat (length b));
     EndHeaders;
     Data b]
  else [Data b].

Definition reply (os : host) (P : Z) (r : request) : list wire :=
  if decide (request_path (target r) = "/health")
  then answer os r "application/json" (health_body P)
  else answer os r "text/plain" (plain_body P).

(** The response a client reads: in full, or the body alone. *)
Definition shaped (os : host) (r : request) (type len : string)
    (content : Py.bytes) : response :=
  if in_full r then
    {| status := Some 200;
       headers := [("Server", python os); ("Date", now r);
                   ("Content-Type", type); ("Content-Length", len)];
       body := content |}
  else {| status := None; headers := []; body := content |}.

(** The line the handler logs for a request. *)
Definition access_log (r : request) : string :=
  "[python-basic] " +:+ quoted (requestline r) +:+ " 200 -".

Definition startup_line (P : Z) : string :=
  "[python-basic] listening on http://localhost:" +:+ Py.str_of_int P.

(** *** Runs *)

(** The events of one connection. *)
Definition exchange (os : host) (P : Z) (c : connection) : list event :=
  map Printed (stdout (handle_one_request os P c))
    ++ [Answered (wfile (handle_one_request os P c))].

(** The events of serving the connections [cs] in order. *)
Definition served (os : host) (P : Z) (cs : list connection) : list event :=
  concat (map (exchange os P) cs).

(** The lines printed in a trace. *)
Definition printed (t : list event) : list string :=
  omap (λ e, match e with Printed l => Some l | _ => None end) t.

(** The answers sent in a trace. *)
Definition answered (t : list event) : list (list wire) :=
  omap (λ e, match e with Answered w => Some w | _ => None end) t.

(** The request a connection carries when its request line is a GET of
    two or three words. *)
Definition as_get (c : connection) (target version : string) : request :=
  {| requestline := Py.rstrip_crlf (raw_requestline c);
     target := target;
     version := version;
     now := clock c |}.

(** The connection sends a GET request line that the library accepts and
    hands to [do_GET] as the request [r]: the words GET and a target,
    alone or followed by a version below 2.0, within the limits on the
    request line and on the headers. *)
Definition carries (c : connection) (r : request) : Prop :=
  (N.of_nat (String.length (raw_requestline c)) <= 65536)%N ∧
  read_header_lines (header_lines c) 0 = None ∧
  r = as_get c (target r) (version r) ∧
  (Py.split (requestline r) = ["GET"; target r] ∧ version r = "HTTP/0.9"
   ∨ Py.split (requestline r) = ["GET"; target r; version r] ∧
     ∃ major minor base,
       version_number (version r) = Some (major, minor, base) ∧
       (2 <? major) || (major =? 2) && (0 <=? minor) = false).

(** One or more slashes. *)
Fixpoint slashes (n : nat) : string :=
  match n with
  | O => "/"
  | S n' => String "/" (slashes n')
  end.

End Spec.

(** ** Sample runs *)

Module Sample.

Import Http Server.

Definition os (port : option string) : host :=
  {| environ := match port with
                | Some s => {["PORT" := s]}
                | None => ∅
                end;
     python := "BaseHTTP/0.6 Python/3.11.2";
     can_bind := λ _, true |}.

(** A GET request of HTTP/1.1. *)
Definition get (path date : string) : request :=
  {| requestline := "GET " +:+ path +:+ " HTTP/1.1";
     target := path;
     version := "HTTP/1.1";
     now := date |}.

(** A GET request without a version. *)
Definition bare (path date : string) : request :=
  {| requestline := "GET " +:+ path;
     target := path;
     version := "HTTP/0.9";
     now := date |}.

(** A connection that sends one request line and no header. *)
Definition sent (line date : string) : connection :=
  {| raw_requestline := line +:+ String "013" (String "010" "");
     header_lines := [String "013" (String "010" "")];
     clock := date |}.

Definition noon : string := "Tue, 03 Nov 2026 12:00:00 GMT".
Definition later : string := "Tue, 03 Nov 2026 12:00:01 GMT".

End Sample.

(** * Properties *)

(** ** Numerals and encodings *)

Example str_of_int_4000 : Py.str_of_int 4000 = "4000".
Proof. reflexivity. Qed.

Example str_of_int_neg : Py.str_of_int (-17) = "-17".
Proof. reflexivity. Qed.

Example int_of_str_8080 : Py.int_of_str "8080" = inr 8080.
Proof. reflexivity. Qed.

Example int_of_str_spaces : Py.int_of_str "  -1_000 " = inr (-1000).
Proof. reflexivity. Qed.

Example int_of_str_bad :
  Py.int_of_str "" = inl Py.ValueError /\
  Py.int_of_str "abc" = inl Py.ValueError /\
  Py.int_of_str "1__0" = inl Py.ValueError /\
  Py.int_of_str "_1" = inl Py.ValueError /\
  Py.int_of_str "1_" = inl Py.ValueError /\
  Py.int_of_str "- 1" = inl Py.ValueError /\
  Py.int_of_str "0x10" = inl Py.ValueError.
Proof. repeat split. Qed.

Example dumps_sample :
  Json.loads (Json.dumps (Json.JObj
     [("a", Json.JArr [Json.JInt 1; Json.JNull; Json.JBool false]);
      ("b", Json.JStr "x\y")]))
  = Some (Json.JObj
     [("a", Json.JArr [Json.JInt 1; Json.JNull; Json.JBool false]);
      ("b", Json.JStr "x\y")]).
Proof. reflexivity. Qed.

Section Decimal.
Import Py.

Lemma app_cons (c : ascii) (s t : string) :
  String c s +:+ t = String c (s +:+ t).
Proof. reflexivity. Qed.

Lemma app_empty (t : string) : "" +:+ t = t.
Proof. reflexivity. Qed.

Lemma app_assoc (s t u : string) : (s +:+ t) +:+ u = s +:+ t +:+ u.
Proof.
  induction s as [|c s IH]; [reflexivity|].
  rewrite !app_cons. by rewrite IH.
Qed.

Lemma digit_val_digit_char (d : N) :
  (d < 10)%N → digit_val (digit_char d) = Some d.
Proof.
  intros Hd. unfold digit_val, digit_char.
  rewrite N_ascii_embedding by lia.
  replace ((48 <=? 48 + d)%N && (48 + d <=? 57)%N) with true.
  - f_equal. lia.
  - symmetry. apply andb_true_intro. split; apply N.leb_le; lia.
Qed.

Lemma digits_aux_app (f : nat) : ∀ (n : N) (acc : string),
  digits_aux f n acc = digits_aux f n "" +:+ acc.
Proof.
  induction f as [|f IH]; intros n acc; simpl.
  - reflexivity.
  - destruct (n / 10 =? 0)%N; [reflexivity|].
    rewrite IH. rewrite (IH _ (String _ "")).
    by rewrite app_assoc.
Qed.

Lemma is_digits_app (s t : string) :
  is_digits (s +:+ t) = is_digits s && is_digits t.
Proof.
  induction s as [|c s IH]; [done|].
  rewrite app_cons. simpl. by rewrite IH, andb_assoc.
Qed.

Lemma dvalue_app (s t : string) : ∀ acc,
  dvalue (s +:+ t) acc = dvalue t (dvalue s acc).
Proof.
  induction s as [|c s IH]; intros acc; [done|].
  rewrite app_cons. simpl. by rewrite IH.
Qed.

Lemma digits_aux_spec (f : nat) : ∀ n : N,
  (n < 2 ^ N.of_nat f)%N →
  is_digits (digits_aux f n "") = true ∧
  ∃ k : N, ∀ acc, dvalue (digits_aux f n "") acc = (k * acc + n)%N.
Proof.
  induction f as [|f IH]; intros n Hn.
  - simpl in *. assert (n = 0%N) as -> by lia. split; [done|].
    exists 10%N. intros acc. simpl. lia.
  - simpl. assert (Hd : (n mod 10 < 10)%N) by (apply N.mod_lt; lia).
    pose proof (digit_val_digit_char _ Hd) as Hv.
    destruct (n / 10 =? 0)%N eqn:Hq.
    + apply N.eqb_eq in Hq. simpl. rewrite Hv. split; [done|].
      exists 10%N. intros acc. simpl.
      pose proof (N.div_mod n 10 ltac:(lia)). lia.
    + rewrite digits_aux_app.
      destruct (IH (n / 10)%N) as [Hdig [k Hk]].
      { rewrite Nat2N.inj_succ, N.pow_succ_r' in Hn.
        apply N.Div0.div_lt_upper_bound. lia. }
      split.
      * rewrite is_digits_app, Hdig. simpl. by rewrite Hv.
      * exists (10 * k)%N. intros acc.
        rewrite dvalue_app, Hk. simpl. rewrite Hv. simpl.
        pose proof (N.div_mod n 10 ltac:(lia)). lia.
Qed.

Lemma size_nat_bound (n : N) : (n < 2 ^ N.of_nat (N.size_nat n))%N.
Proof.
  destruct n as [|p]; [done|]. simpl.
  induction p as [p IH|p IH|]; simpl Pos.size_nat;
    rewrite ?Nat2N.inj_succ, ?N.pow_succ_r'; lia.
Qed.

Lemma digits_is_digits (n : N) : is_digits (digits n) = true.
Proof. apply digits_aux_spec, size_nat_bound. Qed.

Lemma digits_value (n : N) : dvalue (digits n) 0 = n.
Proof.
  destruct (digits_aux_spec _ _ (size_nat_bound n)) as [_ [k Hk]].
  unfold digits. rewrite Hk. lia.
Qed.

Lemma digit_val_inv (c : ascii) (d : N) :
  digit_val c = Some d → (d < 10)%N ∧ c = digit_char d.
Proof.
  unfold digit_val, digit_char. intros H.
  destruct ((48 <=? N_of_ascii c)%N && (N_of_ascii c <=? 57)%N) eqn:E;
    [|discriminate].
  apply andb_prop in E as [E1 E2].
  apply N.leb_le in E1, E2. injection H as <-. split; [lia|].
  replace (48 + (N_of_ascii c - 48))%N with (N_of_ascii c) by lia.
  by rewrite ascii_N_embedding.
Qed.

(** The leading digit of a positive number is not zero. *)
Lemma digits_aux_head (f : nat) : ∀ (n : N) (acc : string),
  (0 < n < 2 ^ N.of_nat f)%N →
  ∃ d s, (0 < d < 10)%N ∧ digits_aux f n acc = String (digit_char d) s.
Proof.
  induction f as [|f IH]; intros n acc Hn; [simpl in Hn; lia|].
  simpl. destruct (n / 10 =? 0)%N eqn:Hq.
  - apply N.eqb_eq in Hq. exists (n mod 10)%N, acc.
    pose proof (N.div_mod n 10 ltac:(lia)).
    pose proof (N.mod_lt n 10 ltac:(lia)).
    rewrite Hq in *. destruct Hn as [Hn _]. split; [lia|done].
  - apply N.eqb_neq in Hq. apply IH.
    rewrite Nat2N.inj_succ, N.pow_succ_r' in Hn. split.
    + by apply N.neq_0_lt_0.
    + apply N.Div0.div_lt_upper_bound. lia.
Qed.

Lemma digits_head (p : positive) :
  ∃ d s, (0 < d < 10)%N ∧ digits (Npos p) = String (digit_char d) s.
Proof.
  apply digits_aux_head. split; [lia|apply size_nat_bound].
Qed.

Lemma digit_not_underscore (c : ascii) (d : N) :
  digit_val c = Some d → Ascii.eqb c "_" = false.
Proof.
  intros H. destruct (Ascii.eqb_spec c "_") as [->|]; [discriminate|done].
Qed.

Lemma take_digits_app (ds : string) : ∀ (rest : string) (acc : N),
  is_digits ds = true →
  Json.take_digits (ds +:+ rest) acc
  = Json.take_digits rest (dvalue ds acc).
Proof.
  induction ds as [|c ds IH]; intros rest acc Hd; [done|].
  rewrite app_cons. simpl in *. apply andb_prop in Hd as [Hc Hd].
  apply bool_decide_eq_true in Hc as [d Hc]. rewrite Hc. simpl.
  by apply IH.
Qed.

Lemma scan_digits_app (ds : string) : ∀ (rest : string) (us : bool) (acc : N),
  is_digits ds = true → ds ≠ "" →
  scan_digits (ds +:+ rest) us acc
  = scan_digits rest false (dvalue ds acc).
Proof.
  induction ds as [|c ds IH]; intros rest us acc Hd Hne; [done|].
  rewrite app_cons. simpl in *. apply andb_prop in Hd as [Hc Hd].
  apply bool_decide_eq_true in Hc as [d Hc].
  rewrite (digit_not_underscore _ _ Hc), Hc. simpl.
  destruct ds as [|c' ds']; [done|]. by apply IH.
Qed.

Lemma take_digits_end (rest : string) (acc : N) :
  Json.ends_number rest = true → Json.take_digits rest acc = (acc, rest).
Proof.
  destruct rest as [|c r]; [done|]. simpl. intros H.
  apply andb_prop in H as [H _]. apply bool_decide_eq_true in H.
  by rewrite H.
Qed.

Lemma ends_number_no_fraction (rest : string) :
  Json.ends_number rest = true → Json.starts_fraction rest = false.
Proof.
  destruct rest as [|c r]; [done|]. intros H.
  apply andb_prop in H as [_ H]. by apply negb_true_iff in H.
Qed.

Ltac leading_digit d Hd :=
  let Hcases := fresh "Hcases" in
  assert (d = 1 ∨ d = 2 ∨ d = 3 ∨ d = 4 ∨ d = 5 ∨ d = 6 ∨ d = 7 ∨ d = 8
          ∨ d = 9)%N as Hcases by lia;
  clear Hd;
  destruct Hcases as [->|[->|[->|[->|[->|[->|[->|[->| ->]]]]]]]].

Lemma parse_nat_digits (p : positive) (rest : string) :
  Json.ends_number rest = true →
  Json.parse_nat (digits (Npos p) +:+ rest) = Some (Npos p, rest).
Proof.
  intros Hr. pose proof (digits_is_digits (Npos p)) as Hd.
  pose proof (digits_value (Npos p)) as Hv.
  destruct (digits_head p) as (d & s & Hd09 & Hs).
  assert (Json.parse_nat (digits (N.pos p) +:+ rest)
          = let '(n, r) := Json.take_digits (digits (N.pos p) +:+ rest) 0 in
            if Json.starts_fraction r then None else Some (n, r)) as ->.
  { rewrite Hs, app_cons.
    leading_digit d Hd09; reflexivity. }
  rewrite take_digits_app, Hv, take_digits_end by done.
  by rewrite ends_number_no_fraction.
Qed.

Theorem parse_int_str_of_int (z : Z) (rest : string) :
  Json.ends_number rest = true →
  Json.parse_int (str_of_int z +:+ rest) = Some (z, rest).
Proof.
  intros Hr. destruct z as [|p|p]; simpl str_of_int.
  - rewrite app_cons, app_empty. simpl.
    by rewrite (ends_number_no_fraction _ Hr).
  - destruct (digits_head p) as (d & s & Hd09 & Hs).
    assert (Json.parse_int (digits (N.pos p) +:+ rest)
            = '(n, r') ← Json.parse_nat (digits (N.pos p) +:+ rest);
              Some (Z.of_N n, r')) as ->.
    { rewrite Hs, app_cons.
      leading_digit d Hd09; reflexivity. }
    by rewrite parse_nat_digits.
  - rewrite app_cons. change (Json.parse_int (String "-" ?r))
      with ('(n, r') ← Json.parse_nat r; Some (- Z.of_N n, r')).
    by rewrite parse_nat_digits.
Qed.

Lemma scan_digits_digits (p : positive) :
  scan_digits (digits (Npos p)) false 0 = Some (Npos p, "").
Proof.
  pose proof (digits_is_digits (Npos p)) as Hd.
  destruct (digits_head p) as (d & s & _ & Hs).
  replace (digits (Npos p)) with (digits (Npos p) +:+ "") at 1
    by (clear; induction (digits (Npos p)) as [|c t IH];
        [done|by rewrite app_cons, IH]).
  rewrite scan_digits_app; [|done|by rewrite Hs].
  by rewrite digits_value.
Qed.

Lemma digit_count_digits (s : string) :
  is_digits s = true → digit_count s = N.of_nat (String.length s).
Proof.
  induction s as [|c s IH]; [done|]. simpl. intros H.
  apply andb_prop in H as [Hc Hs]. apply bool_decide_eq_true in Hc as [d Hc].
  rewrite (digit_not_underscore _ _ Hc), Hc, IH by done. lia.
Qed.

Lemma length_digits_aux (f : nat) : ∀ (n : N) (acc : string),
  (String.length (digits_aux f n acc) <= S f + String.length acc)%nat.
Proof.
  induction f as [|f IH]; intros n acc; simpl; [lia|].
  destruct (n / 10 =? 0)%N; simpl; [lia|].
  etransitivity; [apply IH|]. simpl. lia.
Qed.

Lemma size_nat_le (p : positive) : ∀ k : nat,
  (Npos p < 2 ^ N.of_nat k)%N → (Pos.size_nat p <= k)%nat.
Proof.
  induction p as [p IH|p IH|]; intros [|k] H; simpl in *; try lia;
    rewrite ?Nat2N.inj_succ, ?N.pow_succ_r' in H;
    try (apply le_n_S, IH; lia).
Qed.

(** A numeral of fewer than 4300 binary digits stays within the limit. *)
Lemma digit_count_short (n : N) :
  (N.of_nat (N.size_nat n) < 4300)%N →
  (digit_count (digits n) <=? max_str_digits)%N = true.
Proof.
  intros Hn. apply N.leb_le.
  rewrite digit_count_digits by apply digits_is_digits.
  pose proof (length_digits_aux (N.size_nat n) n "") as Hlen.
  unfold digits, max_str_digits. simpl in Hlen. lia.
Qed.

Lemma parse_magnitude_digits (p : positive) :
  (N.of_nat (N.size_nat (Npos p)) < 4300)%N →
  parse_magnitude (digits (Npos p)) = Some (Npos p).
Proof.
  intros Hshort. pose proof (scan_digits_digits p) as Hscan.
  pose proof (digit_count_short _ Hshort) as Hcount.
  destruct (digits_head p) as (d & s & Hd09 & Hs).
  unfold parse_magnitude. rewrite Hs in *.
  rewrite digit_val_digit_char by lia. by rewrite Hscan, Hcount.
Qed.

Lemma int_of_str_unsigned (d : N) (s : string) :
  (d < 10)%N →
  int_of_str (String (digit_char d) s)
  = match parse_magnitude (String (digit_char d) s) with
    | Some n => inr (Z.of_N n)
    | None => inl ValueError
    end.
Proof.
  intros Hd.
  assert (d = 0 ∨ d = 1 ∨ d = 2 ∨ d = 3 ∨ d = 4 ∨ d = 5 ∨ d = 6 ∨ d = 7
          ∨ d = 8 ∨ d = 9)%N as Hcases by lia.
  destruct Hcases as [->|[->|[->|[->|[->|[->|[->|[->|[->| ->]]]]]]]]];
    reflexivity.
Qed.

(** [int(str(z)) == z] for an integer of fewer than 4300 binary digits:
    the numeral [str] prints denotes the integer. *)
Theorem int_of_str_str_of_int (z : Z) :
  (N.of_nat (N.size_nat (Z.abs_N z)) < 4300)%N →
  int_of_str (str_of_int z) = inr z.
Proof.
  destruct z as [|p|p]; [reflexivity| |]; intros Hshort.
  - pose proof (parse_magnitude_digits p Hshort) as Hm.
    destruct (digits_head p) as (d & s & Hd09 & Hs).
    simpl str_of_int. rewrite Hs in *.
    rewrite int_of_str_unsigned by lia. by rewrite Hm.
  - pose proof (parse_magnitude_digits p Hshort) as Hm.
    unfold int_of_str. simpl. by rewrite Hm.
Qed.

(** Port numbers are short. *)
Lemma port_is_short (n : Z) :
  0 <= n <= 65535 → (N.of_nat (N.size_nat (Z.abs_N n)) < 4300)%N.
Proof.
  intros Hn. destruct n as [|p|p]; [done| |lia].
  assert (Pos.size_nat p <= 16)%nat as Hsize
    by (apply size_nat_le; simpl; lia).
  simpl. lia.
Qed.

Theorem decode_encode_utf8 (s : string) :
  decode_utf8 (encode_utf8 s) = Some s.
Proof.
  induction s as [|c s IH]; [done|].
  destruct c as [[] [] [] [] [] [] [] []]; simpl; by rewrite IH.
Qed.

End Decimal.

(** ** The reference decoder on what [json.dumps] writes *)

Section Decoding.
Import Json Spec.

Lemma str_of_int_head (z : Z) :
  ∃ c s, Py.str_of_int z = String c s ∧
         (c = "-"%char ∨ ∃ d, (d < 10)%N ∧ c = Py.digit_char d).
Proof.
  destruct z as [|p|p]; simpl.
  - exists "0"%char, "". split; [done|]. right. by exists 0%N.
  - destruct (digits_head p) as (d & s & Hd & ->).
    exists (Py.digit_char d), s. split; [done|]. right. exists d.
    split; [lia|done].
  - eexists _, _. split; [done|]. by left.
Qed.

Lemma parse_value_number (f : nat) (c : ascii) (t : string) :
  (c = "-"%char ∨ ∃ d, (d < 10)%N ∧ c = Py.digit_char d) →
  parse_value (S f) (String c t)
  = '(z, r) ← parse_int (String c t); Some (JInt z, r).
Proof.
  intros [->|(d & Hd & ->)]; [reflexivity|].
  assert (d = 0 ∨ d = 1 ∨ d = 2 ∨ d = 3 ∨ d = 4 ∨ d = 5 ∨ d = 6 ∨ d = 7
          ∨ d = 8 ∨ d = 9)%N as Hcases by lia.
  destruct Hcases as [->|[->|[->|[->|[->|[->|[->|[->|[->| ->]]]]]]]]];
    reflexivity.
Qed.

Lemma parse_value_int (f : nat) (z : Z) (rest : string) :
  ends_number rest = true →
  parse_value (S f) (Py.str_of_int z +:+ rest) = Some (JInt z, rest).
Proof.
  intros Hr. pose proof (parse_int_str_of_int z rest Hr) as Hi.
  destruct (str_of_int_head z) as (c & s & Hs & Hc).
  rewrite Hs, app_cons in *. rewrite parse_value_number by done.
  by rewrite Hi.
Qed.

Lemma parse_value_space (f : nat) (s : string) :
  parse_value (S f) (String " " s) = parse_value (S f) s.
Proof. reflexivity. Qed.

Lemma parse_string_escape (s : string) : ∀ rest,
  parse_string (escape s +:+ String "034" rest) = Some (s, rest).
Proof.
  induction s as [|c s IH]; intros rest; [reflexivity|].
  change (escape (String c s)) with (escape_char c +:+ escape s).
  rewrite app_assoc.
  transitivity (parse_string (escape s +:+ String "034" rest)
                ≫= (λ '(t, r'), Some (String c t, r'))).
  - generalize (escape s +:+ String "034" rest). intros T.
    destruct c as [[] [] [] [] [] [] [] []]; reflexivity.
  - by rewrite IH.
Qed.

Lemma parse_value_str (f : nat) (s rest : string) :
  parse_value (S f) (encode_basestring_ascii s +:+ rest)
  = Some (JStr s, rest).
Proof.
  unfold encode_basestring_ascii. rewrite app_cons, app_assoc, app_cons.
  transitivity (parse_string (escape s +:+ String "034" ("" +:+ rest))
                ≫= (λ '(t, r'), Some (JStr t, r'))); [reflexivity|].
  by rewrite parse_string_escape.
Qed.

Lemma parse_members_key (f : nat) (R k R' : string) :
  parse_string R = Some (k, R') →
  parse_members (S f) (String "034" R)
  = match skip_ws R' with
    | String ":" r2 =>
        '(v, r3) ← parse_value f r2;
        match skip_ws r3 with
        | String "," r4 =>
            '(m, r5) ← parse_members f r4; Some ((k, v) :: m, r5)
        | String "}" r4 => Some ([(k, v)], r4)
        | _ => None
        end
    | _ => None
    end.
Proof.
  intros HR.
  transitivity
    ('(k, r1) ← parse_string R;
     match skip_ws r1 with
     | String ":" r2 =>
         '(v, r3) ← parse_value f r2;
         match skip_ws r3 with
         | String "," r4 =>
             '(m, r5) ← parse_members f r4; Some ((k, v) :: m, r5)
         | String "}" r4 => Some ([(k, v)], r4)
         | _ => None
         end
     | _ => None
     end); [reflexivity|].
  by rewrite HR.
Qed.

Lemma parse_members_last (f : nat) (k V : string) (v : json) (rest : string) :
  parse_value f (String " " (V +:+ String "}" rest))
    = Some (v, String "}" rest) →
  parse_members (S f)
    (encode_basestring_ascii k +:+ ": " +:+ V +:+ String "}" rest)
  = Some ([(k, v)], rest).
Proof.
  intros Hv. unfold encode_basestring_ascii.
  rewrite app_cons, app_assoc, app_cons, app_empty.
  rewrite (parse_members_key _ _ _ _ (parse_string_escape _ _)).
  rewrite !app_cons, app_empty.
  cbn [skip_ws is_ws]. rewrite Hv. reflexivity.
Qed.

Lemma parse_members_more (f : nat) (k V : string) (v : json)
    (m : list (string * json)) (T rest : string) :
  parse_value f (String " " (V +:+ String "," T))
    = Some (v, String "," T) →
  parse_members f T = Some (m, rest) →
  parse_members (S f)
    (encode_basestring_ascii k +:+ ": " +:+ V +:+ String "," T)
  = Some ((k, v) :: m, rest).
Proof.
  intros Hv Hm. unfold encode_basestring_ascii.
  rewrite app_cons, app_assoc, app_cons, app_empty.
  rewrite (parse_members_key _ _ _ _ (parse_string_escape _ _)).
  rewrite !app_cons, app_empty.
  cbn [skip_ws is_ws]. rewrite Hv.
  cbn [mbind option_bind skip_ws is_ws]. rewrite Hm. reflexivity.
Qed.

Lemma parse_members_space (f : nat) (s : string) :
  parse_members f (String " " s) = parse_members f s.
Proof. destruct f; reflexivity. Qed.

Lemma parse_value_object (f : nat) (s : string)
    (m : list (string * json)) (rest : string) :
  parse_members f (String "034" s) = Some (m, rest) →
  parse_value (S f) (String "{" (String "034" s)) = Some (JObj m, rest).
Proof.
  intros Hm.
  transitivity ('(m, r') ← parse_members f (String "034" s);
                Some (JObj m, r')); [reflexivity|].
  by rewrite Hm.
Qed.

Lemma parse_health (f : nat) (P : Z) :
  parse_value (S (S (S (S (S f))))) (health_text P)
  = Some (Server.Handler.health P, "").
Proof.
  set (port := encode_basestring_ascii "port" +:+ ": "
                 +:+ Py.str_of_int P +:+ String "}" "").
  set (service := encode_basestring_ascii "service" +:+ ": "
                 +:+ encode_basestring_ascii "python-basic"
                 +:+ String "," (String " " port)).
  set (ok := encode_basestring_ascii "ok" +:+ ": " +:+ "true"
                 +:+ String "," (String " " service)).
  change (health_text P) with (String "{" ok).
  apply parse_value_object.
  apply (parse_members_more _ "ok" "true" (JBool true)); [reflexivity|].
  rewrite parse_members_space.
  apply (parse_members_more _ "service" _ (JStr "python-basic")).
  { by rewrite parse_value_space, parse_value_str. }
  rewrite parse_members_space.
  apply (parse_members_last _ "port" _ (JInt P)).
  rewrite parse_value_space. by apply parse_value_int.
Qed.

Theorem loads_health (P : Z) :
  loads (health_text P) = Some (Server.Handler.health P).
Proof.
  unfold loads.
  assert (∃ n, String.length (health_text P) = S (S (S (S n)))) as [n ->]
    by (eexists; reflexivity).
  by rewrite parse_health.
Qed.

Lemma dumps_health (P : Z) :
  dumps (Server.Handler.health P) = health_text P.
Proof. reflexivity. Qed.

End Decoding.

(** ** Numerals and octets, as the specification reads them *)

Section Reading.
Import Py Spec.

Lemma digit_of_digit_char (d : N) :
  (d < 10)%N → digit_of (digit_char d) = Some (Z.of_N d).
Proof.
  intros Hd.
  assert (d = 0 ∨ d = 1 ∨ d = 2 ∨ d = 3 ∨ d = 4 ∨ d = 5 ∨ d = 6 ∨ d = 7
          ∨ d = 8 ∨ d = 9)%N as Hcases by lia.
  destruct Hcases as [->|[->|[->|[->|[->|[->|[->|[->|[->| ->]]]]]]]]];
    reflexivity.
Qed.

Lemma natural_value_digits (s : string) : ∀ acc : N,
  is_digits s = true →
  natural_value s (Z.of_N acc) = Some (Z.of_N (dvalue s acc)).
Proof.
  induction s as [|c s IH]; intros acc H; [done|]. simpl in *.
  apply andb_prop in H as [Hc Hs]. apply bool_decide_eq_true in Hc as [d Hc].
  rewrite Hc. apply digit_val_inv in Hc as [Hd ->].
  rewrite digit_of_digit_char by done. simpl.
  rewrite <- IH by done. f_equal. lia.
Qed.

Lemma canonical_digits (p : positive) : canonical (digits (Npos p)) = true.
Proof.
  destruct (digits_head p) as (d & s & Hd & ->).
  assert (d = 1 ∨ d = 2 ∨ d = 3 ∨ d = 4 ∨ d = 5 ∨ d = 6 ∨ d = 7 ∨ d = 8
          ∨ d = 9)%N as Hcases by lia.
  destruct Hcases as [->|[->|[->|[->|[->|[->|[->|[->| ->]]]]]]]];
    reflexivity.
Qed.

Lemma natural_value_of_digits (n : N) :
  natural_value (digits n) 0 = Some (Z.of_N n).
Proof.
  rewrite (natural_value_digits _ 0%N) by apply digits_is_digits.
  by rewrite digits_value.
Qed.

(** [str] prints the decimal numeral of its argument. *)
Theorem str_of_int_is_numeral (z : Z) : is_numeral z (str_of_int z) = true.
Proof.
  destruct z as [|p|p]; [reflexivity| |].
  - pose proof (canonical_digits p) as Hc.
    pose proof (natural_value_of_digits (Npos p)) as Hv.
    simpl str_of_int. destruct (digits_head p) as (d & s & Hd & Hs).
    rewrite Hs in *.
    assert (is_numeral (Z.pos p) (String (digit_char d) s)
            = canonical (String (digit_char d) s)
              && bool_decide (natural_value (String (digit_char d) s) 0
                              = Some (Z.pos p))) as ->.
    { assert (d = 1 ∨ d = 2 ∨ d = 3 ∨ d = 4 ∨ d = 5 ∨ d = 6 ∨ d = 7 ∨ d = 8
              ∨ d = 9)%N as Hcases by lia.
      destruct Hcases as [->|[->|[->|[->|[->|[->|[->|[->| ->]]]]]]]];
        reflexivity. }
    rewrite Hc. by apply bool_decide_eq_true.
  - change (is_numeral (Z.neg p) (str_of_int (Z.neg p)))
      with ((Z.neg p <? 0) && canonical (digits (Npos p))
            && bool_decide (natural_value (digits (Npos p)) 0
                            = Some (- Z.neg p))).
    rewrite canonical_digits, natural_value_of_digits.
    by apply bool_decide_eq_true.
Qed.

Lemma all_ascii_app (s t : string) :
  all_ascii (s +:+ t) = all_ascii s && all_ascii t.
Proof.
  induction s as [|c s IH]; [done|].
  rewrite app_cons. simpl. by rewrite IH, andb_assoc.
Qed.

Lemma all_ascii_digits (s : string) :
  is_digits s = true → all_ascii s = true.
Proof.
  induction s as [|c s IH]; [done|]. simpl. intros H.
  apply andb_prop in H as [Hc Hs]. apply bool_decide_eq_true in Hc as [d Hc].
  apply digit_val_inv in Hc as [Hd ->]. rewrite IH by done.
  unfold digit_char. rewrite N_ascii_embedding by lia.
  rewrite andb_true_r. apply N.ltb_lt. lia.
Qed.

Lemma all_ascii_str_of_int (z : Z) : all_ascii (str_of_int z) = true.
Proof.
  destruct z as [|p|p]; [done| |].
  - apply all_ascii_digits, digits_is_digits.
  - simpl. apply all_ascii_digits, digits_is_digits.
Qed.

Lemma to_N_byte_of_ascii (c : ascii) :
  Byte.to_N (byte_of_ascii c) = N_of_ascii c.
Proof. destruct c as [[] [] [] [] [] [] [] []]; reflexivity. Qed.

(** An ASCII text is encoded as its own octets. *)
Lemma encode_ascii (s : string) :
  all_ascii s = true →
  encode_utf8 s = octets s ∧
  length (encode_utf8 s) = String.length s ∧
  Forall (λ b, (Byte.to_N b < 128)%N) (encode_utf8 s).
Proof.
  induction s as [|c s IH]; [by repeat split|]. simpl. intros H.
  apply andb_prop in H as [Hc Hs]. destruct (IH Hs) as (Hoct & Hlen & Hall).
  unfold encode_char. rewrite Hc. simpl. repeat split.
  - unfold octets in *. simpl. by rewrite Hoct.
  - by rewrite Hlen.
  - constructor; [|done]. rewrite to_N_byte_of_ascii. by apply N.ltb_lt.
Qed.

Lemma all_ascii_health_text (P : Z) : all_ascii (health_text P) = true.
Proof.
  unfold health_text. rewrite !all_ascii_app, all_ascii_str_of_int.
  reflexivity.
Qed.

Lemma all_ascii_plain_text (P : Z) : all_ascii (plain_text P) = true.
Proof.
  unfold plain_text. rewrite !all_ascii_app, all_ascii_str_of_int.
  reflexivity.
Qed.


End Reading.

(** ** One GET request *)

Section Handling.
Import Http Json Server Spec.

Variables (os : host) (P : Z) (r : request).

(** Runs the library calls of [do_GET] on the handler of [r], down to the
    test on the request version. *)
Ltac run_do_GET :=
  let E := fresh "E" in
  destruct (String.eqb (version r) "HTTP/0.9") eqn:E;
  repeat progress
    (cbv beta iota zeta delta
       [send_response log_request Handler.log_message print
        send_response_only send_header end_headers buffer flush_headers
        wfile_write modify self mbind H_bind mret H_ret versioned fresh snd
        request_version path line command version_string date_time_string
        headers_buffer wfile stdout negb];
     rewrite ?E).

Lemma wfile_health :
  request_path (target r) = "/health" →
  wfile (handle os P r) = answer os r "application/json" (health_body P).
Proof.
  intros Hp. unfold handle, Handler.do_GET, mbind, H_bind, self.
  simpl path. rewrite decide_True by done.
  unfold answer, in_full. run_do_GET; reflexivity.
Qed.

Lemma wfile_other :
  request_path (target r) ≠ "/health" →
  wfile (handle os P r) = answer os r "text/plain" (plain_body P).
Proof.
  intros Hp. unfold handle, Handler.do_GET, mbind, H_bind, self.
  simpl path. rewrite decide_False by done.
  unfold answer, in_full. run_do_GET; reflexivity.
Qed.

Lemma wfile_handle : wfile (handle os P r) = reply os P r.
Proof.
  unfold reply. case_decide; [by apply wfile_health|by apply wfile_other].
Qed.

Lemma stdout_handle : stdout (handle os P r) = [access_log r].
Proof.
  assert (access_log r
          = "[python-basic] "
              +:+ String "034" (requestline r +:+ String "034" " 200 -"))
    as -> by (unfold access_log, quoted;
              by rewrite (app_cons "034" _ " 200 -"), app_assoc).
  unfold handle, Handler.do_GET, mbind, H_bind, self.
  simpl path.
  case_decide; run_do_GET; reflexivity.
Qed.

Lemma read_answer (type : string) (b : Py.bytes) :
  read_response (answer os r type b)
  = Some (shaped os r type (Py.str_of_nat (length b)) b).
Proof.
  unfold answer, shaped. destruct (in_full r); simpl; by rewrite app_nil_r.
Qed.

End Handling.

(** ** The path the handler compares *)

Section Paths.
Import Http Spec.

Lemma request_path_single (t : string) :
  Py.startswith "//" t = false → request_path t = t.
Proof. intros H. unfold request_path. by rewrite H. Qed.

Lemma request_path_health : request_path "/health" = "/health".
Proof. reflexivity. Qed.

Lemma request_path_query (query : string) :
  request_path ("/health?" +:+ query) = "/health?" +:+ query.
Proof. reflexivity. Qed.

Lemma lstrip_slashes (n : nat) (s : string) :
  Py.lstrip_slash (slashes n +:+ s) = Py.lstrip_slash s.
Proof. induction n as [|n IH]; [done|]. simpl. apply IH. Qed.

Lemma lstrip_slash_inv (t : string) : ∀ s c,
  Py.lstrip_slash t = String c s →
  c ≠ "/"%char ∧ (t = String c s ∨ ∃ n, t = slashes n +:+ String c s).
Proof.
  induction t as [|a t IH]; intros s c H; [done|].
  destruct (Ascii.eqb_spec a "/") as [->|Hne].
  - simpl in H. destruct (IH _ _ H) as [Hc [->|[n ->]]].
    + split; [done|]. right. by exists 0%nat.
    + split; [done|]. right. by exists (S n).
  - assert (Py.lstrip_slash (String a t) = String a t) as Hid.
    { destruct a as [[] [] [] [] [] [] [] []]; try reflexivity. done. }
    rewrite Hid in H. injection H as -> ->. split; [done|]. by left.
Qed.

(** The handler sees [/health] exactly for the targets made of one or
    more slashes and the word health. *)
Lemma request_path_is_health (t : string) :
  request_path t = "/health" ↔ ∃ n, t = slashes n +:+ "health".
Proof.
  unfold request_path. split.
  - destruct (Py.startswith "//" t) eqn:Hs.
    + intros H. injection H as H.
      destruct (lstrip_slash_inv _ _ _ H) as [_ [->|[n ->]]]; [done|].
      by exists n.
    + intros ->. by exists 0%nat.
  - intros [n ->]. destruct n as [|n]; [reflexivity|].
    assert (Py.startswith "//" (slashes (S n) +:+ "health") = true) as ->
      by (destruct n as [|[|n]]; reflexivity).
    by rewrite lstrip_slashes.
Qed.

End Paths.

(** ** The process *)

Section Process.
Import Http Json Server Spec.

Variable os : host.

Lemma serve_forever_served (P : Z) (cs : list connection) :
  serve_forever os P cs = (served os P cs, inr tt).
Proof.
  induction cs as [|c cs IH]; [done|].
  change (serve_forever os P (c :: cs))
    with (handle_request os P c;; serve_forever os P cs).
  rewrite IH. reflexivity.
Qed.

Lemma served_app (P : Z) (cs cs' : list connection) :
  served os P (cs ++ cs') = served os P cs ++ served os P cs'.
Proof. unfold served. by rewrite map_app, concat_app. Qed.

Lemma port_in_range (p : Z) :
  0 <= p <= 65535 → negb ((0 <=? p) && (p <=? 65535)) = false.
Proof.
  intros Hp. apply negb_false_iff, andb_true_intro.
  split; apply Z.leb_le; lia.
Qed.

(** Every run, by what the module body and [HTTPServer] do. *)
Lemma main_run (cs : list connection) :
  main os cs
  = match Server.PORT (environ os) with
    | inl e => ([], inl e)
    | inr p =>
        if negb ((0 <=? p) && (p <=? 65535)) then ([], inl Py.OverflowError)
        else if can_bind os p
        then (Bound "0.0.0.0" p :: Printed (startup_line p)
                :: served os p cs, inr tt)
        else ([], inl Py.OSError)
    end.
Proof.
  unfold main, HTTPServer.
  destruct (Server.PORT (environ os)) as [e|p]; [reflexivity|].
  simpl. destruct (negb _); [reflexivity|].
  destruct (can_bind os p); [|reflexivity].
  simpl. by rewrite serve_forever_served.
Qed.

(** A request line of the words GET, a target and a version below 2.0,
    followed by headers the library accepts, reaches [do_GET]. *)
Lemma dispatch_get (P : Z) (c : connection) (t v base : string)
    (major minor : Z) :
  (N.of_nat (String.length (raw_requestline c)) <= 65536)%N →
  Py.split (Py.rstrip_crlf (raw_requestline c)) = ["GET"; t; v] →
  version_number v = Some (major, minor, base) →
  (2 <? major) || (major =? 2) && (0 <=? minor) = false →
  read_header_lines (header_lines c) 0 = None →
  handle_one_request os P c = handle os P (as_get c t v).
Proof.
  intros Hlen Hwords Hver Hlow Hhdr.
  unfold handle_one_request, Http.handle_one_request.
  apply N.leb_le in Hlen. rewrite N.leb_antisym in Hlen.
  apply negb_true_iff in Hlen. rewrite Hlen.
  assert (String.eqb (raw_requestline c) "" = false) as ->.
  { destruct (raw_requestline c); [done|reflexivity]. }
  unfold parse_request. rewrite Hwords.
  cbv beta iota zeta delta
    [mbind H_bind mret H_ret set_command set_request_version
     set_requestline set_path modify self blank bool_decide decide_rel
     length].
  change (List.last ["GET"; t; v] "") with v.
  rewrite Hver, Hlow. cbv beta iota zeta. rewrite Hhdr.
  reflexivity.
Qed.

(** So does a request line of the two words GET and a target. *)
Lemma dispatch_bare_get (P : Z) (c : connection) (t : string) :
  (N.of_nat (String.length (raw_requestline c)) <= 65536)%N →
  Py.split (Py.rstrip_crlf (raw_requestline c)) = ["GET"; t] →
  read_header_lines (header_lines c) 0 = None →
  handle_one_request os P c = handle os P (as_get c t "HTTP/0.9").
Proof.
  intros Hlen Hwords Hhdr.
  unfold handle_one_request, Http.handle_one_request.
  apply N.leb_le in Hlen. rewrite N.leb_antisym in Hlen.
  apply negb_true_iff in Hlen. rewrite Hlen.
  assert (String.eqb (raw_requestline c) "" = false) as ->.
  { destruct (raw_requestline c); [done|reflexivity]. }
  unfold parse_request. rewrite Hwords.
  cbv beta iota zeta delta
    [mbind H_bind mret H_ret set_command set_request_version
     set_requestline set_path modify self blank bool_decide decide_rel
     length].
  simpl. rewrite Hhdr.
  reflexivity.
Qed.

End Process.

Section Dispatch.
Import Http Json Server Spec.

Variable os : host.

Lemma carries_dispatch (P : Z) (c : connection) (r : request) :
  carries c r → handle_one_request os P c = handle os P r.
Proof.
  intros (Hlen & Hhdr & Hr & [[Hw Hv]|[Hw (major & minor & base & Hn & Hlow)]]).
  - rewrite Hr, Hv. rewrite Hr in Hw. apply dispatch_bare_get; done.
  - rewrite Hr. rewrite Hr in Hw. by eapply dispatch_get.
Qed.

Lemma printed_exchange (P : Z) (c : connection) (t : list event) :
  printed (exchange os P c ++ t)
  = stdout (handle_one_request os P c) ++ printed t.
Proof.
  unfold exchange, printed. rewrite <- List.app_assoc.
  induction (stdout (handle_one_request os P c)) as [|l ls IH]; [done|].
  simpl. f_equal. exact IH.
Qed.

Lemma printed_served (P : Z) (cs : list connection) (rs : list request) :
  Forall2 carries cs rs →
  printed (served os P cs) = map access_log rs.
Proof.
  induction 1 as [|c r cs rs Hc _ IH]; [done|].
  change (served os P (c :: cs)) with (exchange os P c ++ served os P cs).
  rewrite printed_exchange, IH, (carries_dispatch P c r Hc), stdout_handle.
  done.
Qed.

Lemma method_other (P : Z) (m : string) :
  m ≠ "GET" → Handler.method P ("do_" +:+ m) = None.
Proof.
  intros Hm. unfold Handler.method.
  destruct (String.eqb_spec ("do_" +:+ m) "do_GET") as [E|]; [|done].
  exfalso. apply Hm. by injection E.
Qed.

End Dispatch.

Section Refusals.
Import Http Json Server Spec.

Variable os : host.

Lemma app_empty_r (s : string) : s +:+ "" = s.
Proof. induction s as [|a s IH]; [done|]. by rewrite app_cons, IH. Qed.

(** The handler after [parse_request] has accepted a request line of
    three words. *)
Lemma parse_request_words (P : Z) (c : connection) (m t v base : string)
    (major minor : Z) :
  Py.split (Py.rstrip_crlf (raw_requestline c)) = [m; t; v] →
  version_number v = Some (major, minor, base) →
  (2 <? major) || (major =? 2) && (0 <=? minor) = false →
  read_header_lines (header_lines c) 0 = None →
  parse_request Handler.log_message (raw_requestline c) (header_lines c)
    (blank os (clock c))
  = (true,
     {| command := Some m; path := request_path t; request_version := v;
        line := Py.rstrip_crlf (raw_requestline c);
        version_string := python os; date_time_string := clock c;
        headers_buffer := []; wfile := []; stdout := [] |}).
Proof.
  intros Hwords Hver Hlow Hhdr.
  unfold parse_request. rewrite Hwords.
  cbv beta iota zeta delta
    [mbind H_bind mret H_ret set_command set_request_version
     set_requestline set_path modify self blank bool_decide decide_rel
     length].
  change (List.last [m; t; v] "") with v.
  rewrite Hver, Hlow. cbv beta iota zeta. rewrite Hhdr.
  reflexivity.
Qed.

Lemma format_error (code message : string) :
  Py.percent_format "code %d, message %s" [code; message]
  = "code " +:+ code +:+ ", message " +:+ message.
Proof.
  transitivity ("code " +:+ (code +:+ (", message " +:+ (message +:+ ""))));
    [reflexivity|].
  by rewrite app_empty_r.
Qed.

Lemma send_error_501 (cmd : option string) (pa v l vs d msg : string) :
  let h := snd (send_error Handler.log_message NOT_IMPLEMENTED (Some msg) None
             {| command := cmd; path := pa; request_version := v;
                line := l; version_string := vs; date_time_string := d;
                headers_buffer := []; wfile := []; stdout := [] |}) in
  stdout h
  = ["[python-basic] code 501, message " +:+ msg;
     "[python-basic] " +:+ String "034" (l +:+ String "034" " 501 -")] ∧
  status_codes (wfile h) = (if decide (v = "HTTP/0.9") then [] else [501]).
Proof.
  unfold send_error, responses, value.
  change (default _ (Some msg)) with msg.
  change ((200 <=? 501) && negb (bool_decide (501 ∈ [204; 205; 304])))
    with true.
  cbv beta iota zeta.
  set (b := Py.encode_utf8 _). clearbody b.
  assert (Py.percent_format (String "034" ("%s" +:+ String "034" " %s %s"))
            [l; Py.str_of_int 501; "-"]
          = String "034" (l +:+ String "034" " 501 -")) as Hfmt
    by reflexivity.
  destruct (String.eqb v "HTTP/0.9") eqn:E;
    destruct b as [|b0 b]; destruct (bool_decide (cmd = Some "HEAD")) eqn:Hc;
    repeat progress
      (cbv beta iota zeta delta
         [send_response log_request log_error Handler.log_message print
          send_response_only send_header end_headers buffer flush_headers
          wfile_write modify self mbind H_bind mret H_ret versioned snd
          request_version path line command version_string date_time_string
          headers_buffer wfile stdout negb];
       rewrite ?E, ?Hc).
  all: rewrite Hfmt, format_error; (split; [reflexivity|]).
  all: first [apply String.eqb_eq in E; by rewrite decide_True
             |apply String.eqb_neq in E; by rewrite decide_False].
Qed.

(** A request line of three words whose method is not GET ends in
    [send_error]. *)
Lemma dispatch_unsupported (P : Z) (c : connection) (m t v base : string)
    (major minor : Z) :
  (N.of_nat (String.length (raw_requestline c)) <= 65536)%N →
  Py.split (Py.rstrip_crlf (raw_requestline c)) = [m; t; v] →
  m ≠ "GET" →
  version_number v = Some (major, minor, base) →
  (2 <? major) || (major =? 2) && (0 <=? minor) = false →
  read_header_lines (header_lines c) 0 = None →
  handle_one_request os P c
  = snd (send_error Handler.log_message NOT_IMPLEMENTED
           (Some ("Unsupported method (" +:+ Py.repr m +:+ ")")) None
           {| command := Some m; path := request_path t;
              request_version := v;
              line := Py.rstrip_crlf (raw_requestline c);
              version_string := python os; date_time_string := clock c;
              headers_buffer := []; wfile := []; stdout := [] |}).
Proof.
  intros Hlen Hwords Hm Hver Hlow Hhdr.
  unfold handle_one_request, Http.handle_one_request.
  apply N.leb_le in Hlen. rewrite N.leb_antisym in Hlen.
  apply negb_true_iff in Hlen. rewrite Hlen.
  assert (String.eqb (raw_requestline c) "" = false) as ->.
  { destruct (raw_requestline c); [done|reflexivity]. }
  unfold mbind at 1. unfold H_bind at 1.
  rewrite (parse_request_words P c m t v base major minor) by done.
  cbv beta iota zeta delta [negb mbind H_bind self command].
  by rewrite method_other.
Qed.

End Refusals.

(** ** The claims of the specification *)

Section Claims.
Import Http Json Server Spec.

(** Reads a response of [do_GET] by the version of its request. *)
Ltac by_version r :=
  unfold shaped, in_full, header;
  destruct (String.eqb_spec (version r) "HTTP/0.9");
  case_decide; try done; simpl.

Lemma respond_health (os : host) (P : Z) (r : request) :
  request_path (target r) = "/health" →
  respond os P r
  = Some (shaped os r "application/json"
            (Py.str_of_nat (length (health_body P))) (health_body P)).
Proof. intros Hp. unfold respond. by rewrite wfile_health, read_answer. Qed.

Lemma respond_other (os : host) (P : Z) (r : request) :
  request_path (target r) ≠ "/health" →
  respond os P r
  = Some (shaped os r "text/plain"
            (Py.str_of_nat (length (plain_body P))) (plain_body P)).
Proof. intros Hp. unfold respond. by rewrite wfile_other, read_answer. Qed.

Lemma body_shaped (os : host) (r : request) (type len : string)
    (content : Py.bytes) :
  body (shaped os r type len content) = content.
Proof. unfold shaped. by destruct (in_full r). Qed.

Lemma plain_body_octets (P : Z) :
  plain_body P
  = octets ("python-basic running on " +:+ Py.str_of_int P
              +:+ String "010" "").
Proof. apply encode_ascii, all_ascii_plain_text. Qed.


Lemma not_slashes_health (t : string) :
  (∀ n, t ≠ slashes n +:+ "health") → request_path t ≠ "/health".
Proof.
  intros Hno Hp. apply request_path_is_health in Hp as [n ->].
  by apply (Hno n).
Qed.

(** C1, as stated, fails: a GET request line without a version is a
    request of HTTP/0.9, for which the library writes neither status
    line nor headers, so [GET /health] is answered with the body alone. *)
Lemma bare_health_gets_body_only :
  target (Sample.bare "/health" Sample.noon) = "/health" ∧
  status_codes
    (wfile (handle_one_request (Sample.os None) 3300
              (Sample.sent "GET /health" Sample.noon))) = [] ∧
  ∃ resp,
    respond (Sample.os None) 3300 (Sample.bare "/health" Sample.noon)
    = Some resp ∧
    status resp = None ∧
    header "Content-Type" resp = None.
Proof.
  split; [reflexivity|]. split; [reflexivity|].
  eexists. split; [reflexivity|]. split; reflexivity.
Qed.

(** C1, amended.  For every configured port [P], a GET request whose path
    is exactly [/health] is answered with a body that decodes to a JSON
    object with exactly the three fields [ok] = true,
    [service] = "python-basic" and [port] = [P]; when its request line
    carries a version other than HTTP/0.9 the answer has status 200 and
    the header [Content-Type: application/json], otherwise it is the body
    alone. *)
Theorem health_endpoint (os : host) (P : Z) (r : request) :
  target r = "/health" →
  ∃ resp,
    respond os P r = Some resp ∧
    status resp
    = (if decide (version r = "HTTP/0.9") then None else Some 200) ∧
    header "Content-Type" resp
    = (if decide (version r = "HTTP/0.9") then None
       else Some "application/json") ∧
    Py.decode_utf8 (body resp) ≫= loads
    = Some (JObj [("ok", JBool true);
                  ("service", JStr "python-basic");
                  ("port", JInt P)]).
Proof.
  intros Hp. rewrite respond_health by (by rewrite Hp).
  eexists. split; [reflexivity|]. rewrite body_shaped.
  split; [by by_version r|]. split; [by by_version r|].
  unfold health_body. rewrite decode_encode_utf8. simpl.
  apply loads_health.
Qed.

Lemma health_endpoint_witness :
  target (Sample.get "/health" Sample.noon) = "/health" ∧
  ∃ resp,
    respond (Sample.os (Some "4000")) 4000 (Sample.get "/health" Sample.noon)
    = Some resp ∧
    status resp = Some 200 ∧
    header "Content-Type" resp = Some "application/json" ∧
    Py.decode_utf8 (body resp) ≫= loads
    = Some (JObj [("ok", JBool true);
                  ("service", JStr "python-basic");
                  ("port", JInt 4000)]).
Proof.
  split; [reflexivity|].
  apply (health_endpoint (Sample.os (Some "4000")) 4000
           (Sample.get "/health" Sample.noon)).
  reflexivity.
Defined.

(** C2, as stated, fails twice: the library reduces leading slashes to
    one before [do_GET] compares, so the path [//health], which is not
    [/health], is answered with the JSON body; and a request line without
    a version is answered without status line and headers. *)
Lemma other_paths_not_all_plain :
  (target (Sample.get "//health" Sample.noon) ≠ "/health" ∧
   ∃ resp,
     respond (Sample.os None) 3300 (Sample.get "//health" Sample.noon)
     = Some resp ∧
     header "Content-Type" resp = Some "application/json") ∧
  (target (Sample.bare "/" Sample.noon) ≠ "/health" ∧
   ∃ resp,
     respond (Sample.os None) 3300 (Sample.bare "/" Sample.noon)
     = Some resp ∧
     status resp = None ∧
     header "Content-Type" resp = None).
Proof.
  split; (split; [discriminate|]); eexists;
    (split; [reflexivity|]); repeat split.
Qed.

(** C2, amended.  For every configured port [P] and every GET request
    whose path is not [/health], nor [/health] behind further slashes,
    the body is exactly "python-basic running on ", the decimal numeral
    of [P] and a newline; when the request line carries a version other
    than HTTP/0.9 the answer has status 200 and the header
    [Content-Type: text/plain], otherwise it is the body alone. *)
Theorem catch_all_endpoint (os : host) (P : Z) (r : request) :
  (∀ n, target r ≠ slashes n +:+ "health") →
  ∃ resp numeral,
    respond os P r = Some resp ∧
    status resp
    = (if decide (version r = "HTTP/0.9") then None else Some 200) ∧
    header "Content-Type" resp
    = (if decide (version r = "HTTP/0.9") then None else Some "text/plain") ∧
    is_numeral P numeral = true ∧
    body resp
    = octets ("python-basic running on " +:+ numeral +:+ String "010" "").
Proof.
  intros Hp. rewrite respond_other by (by apply not_slashes_health).
  eexists _, (Py.str_of_int P). split; [reflexivity|].
  rewrite body_shaped.
  split; [by by_version r|]. split; [by by_version r|].
  split; [apply str_of_int_is_numeral|apply plain_body_octets].
Qed.

Lemma catch_all_endpoint_witness :
  (∀ n, target (Sample.get "/" Sample.noon) ≠ slashes n +:+ "health") ∧
  ∃ resp numeral,
    respond (Sample.os None) 3300 (Sample.get "/" Sample.noon) = Some resp ∧
    status resp = Some 200 ∧
    header "Content-Type" resp = Some "text/plain" ∧
    is_numeral 3300 numeral = true ∧
    body resp
    = octets ("python-basic running on " +:+ numeral +:+ String "010" "").
Proof.
  assert (∀ n, target (Sample.get "/" Sample.noon) ≠ slashes n +:+ "health")
    as Hno by (intros [|[|n]]; discriminate).
  split; [exact Hno|].
  apply (catch_all_endpoint (Sample.os None) 3300
           (Sample.get "/" Sample.noon)).
  exact Hno.
Defined.

(** C3, as stated, fails: a GET request line without a version is
    answered without any header, so there is no [Content-Length]. *)
Lemma bare_request_has_no_content_length :
  ∃ resp,
    respond (Sample.os None) 3300 (Sample.bare "/" Sample.noon) = Some resp ∧
    header "Content-Length" resp = None ∧
    length (body resp) = 29%nat.
Proof. eexists. split; [reflexivity|]. split; reflexivity. Qed.

(** C3, amended.  For every GET request, on either branch, and every
    configured port, when the request line carries a version other than
    HTTP/0.9 the [Content-Length] header is the decimal numeral of the
    number of bytes of the body; otherwise no header is sent. *)
Theorem content_length_exact (os : host) (P : Z) (r : request) :
  ∃ resp numeral,
    respond os P r = Some resp ∧
    is_numeral (Z.of_nat (length (body resp))) numeral = true ∧
    header "Content-Length" resp
    = (if decide (version r = "HTTP/0.9") then None else Some numeral).
Proof.
  unfold respond. rewrite wfile_handle. unfold reply.
  case_decide; rewrite read_answer;
    (eexists _, _; split; [reflexivity|]); rewrite body_shaped;
    (split; [apply str_of_int_is_numeral|by by_version r]).
Qed.

(** C5, as stated, fails: for a GET request line without a version no
    status line is sent at all. *)
Lemma bare_request_has_no_status_line :
  status_codes
    (wfile (handle (Sample.os None) 3300 (Sample.bare "/foo" Sample.noon)))
  = [] ∧
  status_codes
    (wfile (handle_one_request (Sample.os None) 3300
              (Sample.sent "GET /foo" Sample.noon))) = [].
Proof. split; reflexivity. Qed.

(** C5, amended.  For every GET request that reaches the handler,
    whatever its path, the handler sends status 200 when the request line
    carries a version other than HTTP/0.9 and no status line otherwise;
    it never sends another status code. *)
Theorem always_200 (os : host) (P : Z) (r : request) :
  status_codes (wfile (handle os P r))
  = (if decide (version r = "HTTP/0.9") then [] else [200]) ∧
  ∃ resp,
    respond os P r = Some resp ∧
    status resp
    = (if decide (version r = "HTTP/0.9") then None else Some 200).
Proof.
  unfold respond. rewrite wfile_handle. unfold reply.
  case_decide; rewrite read_answer;
    (split; [unfold answer; by by_version r
            |eexists; split; [reflexivity|by by_version r]]).
Qed.



(** C6.  The serialised [/health] body lists its three fields in the
    order [ok], [service], [port]. *)
Theorem health_field_order (os : host) (P : Z) (r : request) :
  target r = "/health" →
  ∃ resp,
    respond os P r = Some resp ∧
    Py.decode_utf8 (body resp)
    = Some ("{" +:+ quoted "ok" +:+ ": true, "
                +:+ quoted "service" +:+ ": " +:+ quoted "python-basic"
                +:+ ", "
                +:+ quoted "port" +:+ ": " +:+ Py.str_of_int P +:+ "}") ∧
    ∃ fields,
      Py.decode_utf8 (body resp) ≫= loads = Some (JObj fields) ∧
      map fst fields = ["ok"; "service"; "port"].
Proof.
  intros Hp. rewrite respond_health by (by rewrite Hp).
  eexists. split; [reflexivity|]. rewrite body_shaped. unfold health_body.
  rewrite decode_encode_utf8. split; [reflexivity|].
  eexists. simpl. rewrite loads_health. split; reflexivity.
Qed.

Lemma health_field_order_witness :
  target (Sample.get "/health" Sample.noon) = "/health" ∧
  ∃ resp,
    respond (Sample.os (Some "4000")) 4000 (Sample.get "/health" Sample.noon)
    = Some resp ∧
    Py.decode_utf8 (body resp)
    = Some ("{" +:+ quoted "ok" +:+ ": true, "
                +:+ quoted "service" +:+ ": " +:+ quoted "python-basic"
                +:+ ", "
                +:+ quoted "port" +:+ ": " +:+ Py.str_of_int 4000 +:+ "}") ∧
    ∃ fields,
      Py.decode_utf8 (body resp) ≫= loads = Some (JObj fields) ∧
      map fst fields = ["ok"; "service"; "port"].
Proof.
  split; [reflexivity|].
  apply (health_field_order (Sample.os (Some "4000")) 4000
           (Sample.get "/health" Sample.noon)).
  reflexivity.
Defined.


(** The answers to one path also differ, at the same time, when only
    one of the request lines carries a version. *)
Example same_path_without_version_differs :
  target (Sample.get "/health" Sample.noon)
    = target (Sample.bare "/health" Sample.noon) ∧
  now (Sample.get "/health" Sample.noon)
    = now (Sample.bare "/health" Sample.noon) ∧
  respond (Sample.os None) 3300 (Sample.get "/health" Sample.noon)
    ≠ respond (Sample.os None) 3300 (Sample.bare "/health" Sample.noon).
Proof. split; [reflexivity|]. split; [reflexivity|discriminate]. Qed.



(** C8.  When the process starts up (the port resolves and the bind
    succeeds), it prints, after the bind and before it serves any
    connection, exactly one line, which announces
    [http://localhost:<PORT>] with the decimal numeral of the configured
    port. *)
Theorem startup_log (os : host) (cs : list connection) (p : Z) :
  Server.PORT (environ os) = inr p →
  0 <= p <= 65535 →
  can_bind os p = true →
  ∃ numeral,
    is_numeral p numeral = true ∧
    main os cs
    = ([Bound "0.0.0.0" p;
        Printed ("[python-basic] listening on http://localhost:"
                   +:+ numeral)]
         ++ fst (serve_forever os p cs), inr tt) ∧
    printed (fst (main os []))
    = ["[python-basic] listening on http://localhost:" +:+ numeral].
Proof.
  intros HP Hrange Hbind. exists (Py.str_of_int p).
  split; [apply str_of_int_is_numeral|].
  rewrite !main_run, HP, port_in_range, Hbind, serve_forever_served by done.
  split; reflexivity.
Qed.

Lemma startup_log_witness :
  Server.PORT (environ (Sample.os (Some "4000"))) = inr 4000 ∧
  0 <= 4000 <= 65535 ∧
  can_bind (Sample.os (Some "4000")) 4000 = true ∧
  ∃ numeral,
    is_numeral 4000 numeral = true ∧
    main (Sample.os (Some "4000")) [Sample.sent "GET /foo HTTP/1.1" Sample.noon]
    = ([Bound "0.0.0.0" 4000;
        Printed ("[python-basic] listening on http://localhost:"
                   +:+ numeral)]
         ++ fst (serve_forever (Sample.os (Some "4000")) 4000
                   [Sample.sent "GET /foo HTTP/1.1" Sample.noon]), inr tt) ∧
    printed (fst (main (Sample.os (Some "4000")) []))
    = ["[python-basic] listening on http://localhost:" +:+ numeral].
Proof.
  split; [reflexivity|]. split; [lia|]. split; [reflexivity|].
  apply (startup_log (Sample.os (Some "4000"))
           [Sample.sent "GET /foo HTTP/1.1" Sample.noon] 4000);
    [reflexivity|lia|reflexivity].
Defined.

(** C9.  A GET request whose target carries a query string on the
    health path, such as [/health?probe=1], is not equal to [/health]
    and gets the plain-text answer, not the JSON one: the plain body,
    and, when the request line carries a version other than HTTP/0.9,
    status 200 with [Content-Type: text/plain]. *)
Theorem query_string_not_health (os : host) (P : Z) (r : request)
    (query : string) :
  target r = "/health?" +:+ query →
  ∃ resp numeral,
    respond os P r = Some resp ∧
    is_numeral P numeral = true ∧
    body resp
    = octets ("python-basic running on " +:+ numeral +:+ String "010" "") ∧
    status resp
    = (if decide (version r = "HTTP/0.9") then None else Some 200) ∧
    header "Content-Type" resp
    = (if decide (version r = "HTTP/0.9") then None else Some "text/plain").
Proof.
  intros Hp. rewrite respond_other by (rewrite Hp; discriminate).
  eexists _, (Py.str_of_int P). split; [reflexivity|].
  rewrite body_shaped. split; [apply str_of_int_is_numeral|].
  split; [apply plain_body_octets|].
  split; by by_version r.
Qed.

Lemma query_string_not_health_witness :
  target (Sample.get "/health?probe=1" Sample.noon)
    = "/health?" +:+ "probe=1" ∧
  ∃ resp numeral,
    respond (Sample.os None) 3300 (Sample.get "/health?probe=1" Sample.noon)
    = Some resp ∧
    is_numeral 3300 numeral = true ∧
    body resp
    = octets ("python-basic running on " +:+ numeral +:+ String "010" "") ∧
    status resp = Some 200 ∧
    header "Content-Type" resp = Some "text/plain".
Proof.
  split; [reflexivity|].
  apply (query_string_not_health (Sample.os None) 3300
           (Sample.get "/health?probe=1" Sample.noon) "probe=1").
  reflexivity.
Defined.

(** C10.  When [PORT] is set to a string that is not a valid integer
    literal, such as the empty string or "abc", [int] raises
    [ValueError] while the module is loaded: the process ends with that
    exception, with no socket bound and no line printed. *)
Theorem invalid_port_crash (os : host) (rs : list connection) (s : string) :
  environ os !! "PORT" = Some s →
  Py.int_of_str s = inl Py.ValueError →
  main os rs = ([], inl Py.ValueError).
Proof.
  intros Hs Hbad. rewrite main_run. unfold Server.PORT.
  rewrite Hs. simpl. by rewrite Hbad.
Qed.

Lemma invalid_port_crash_witness :
  (Py.int_of_str "abc" = inl Py.ValueError ∧
   main (Sample.os (Some "abc")) [Sample.sent "GET /health HTTP/1.1" Sample.noon]
   = ([], inl Py.ValueError)) ∧
  (Py.int_of_str "" = inl Py.ValueError ∧
   main (Sample.os (Some "")) [Sample.sent "GET /health HTTP/1.1" Sample.noon]
   = ([], inl Py.ValueError)).
Proof.
  split; (split; [reflexivity|]).
  - apply (invalid_port_crash (Sample.os (Some "abc")) _ "abc");
      reflexivity.
  - apply (invalid_port_crash (Sample.os (Some "")) _ ""); reflexivity.
Defined.

End Claims.

(** ** Further properties of the handler and of a run *)

Section Bodies.
Import Http Json Server Spec.

(** X1.  Every request the handler serves prints exactly one line: the tag
    [[python-basic]], the request line between quotes exactly as it was
    received (a percent sign in it is not read as a conversion), the
    status 200 and a dash. *)
Theorem access_log_line (os : host) (P : Z) (r : request) :
  stdout (handle os P r)
  = ["[python-basic] "
       +:+ String "034" (requestline r +:+ String "034" " 200 -")].
Proof.
  rewrite stdout_handle. unfold access_log, quoted.
  by rewrite (app_cons "034" _ " 200 -"), app_assoc.
Qed.

Lemma loads_plain_text (P : Z) : loads (plain_text P) = None.
Proof. reflexivity. Qed.

(** X2.  The JSON answer is given exactly for the targets made of one or
    more slashes followed by the word health: [/health] itself and, since
    the library reduces leading slashes to one, [//health]; every other
    target, such as [/health/], [/HEALTH] or [/health?x], gets the plain
    body. *)
Theorem health_only_for_exact_path (os : host) (P : Z) (r : request) :
  ∃ resp,
    respond os P r = Some resp ∧
    (Py.decode_utf8 (body resp) ≫= loads
     = Some (JObj [("ok", JBool true);
                   ("service", JStr "python-basic");
                   ("port", JInt P)])
     ↔ ∃ n, target r = slashes n +:+ "health").
Proof.
  destruct (decide (request_path (target r) = "/health")) as [Hp|Hp].
  - rewrite respond_health by done. eexists. split; [reflexivity|].
    rewrite body_shaped. unfold health_body.
    rewrite decode_encode_utf8. simpl. rewrite loads_health.
    split; [intros _; by apply request_path_is_health|done].
  - rewrite respond_other by done. eexists. split; [reflexivity|].
    rewrite body_shaped. unfold plain_body.
    rewrite decode_encode_utf8. simpl. rewrite loads_plain_text.
    split; [done|]. intros Hn. by apply request_path_is_health in Hn.
Qed.

(** X6.  Both bodies are pure ASCII: every byte is below 128, and the
    body has as many bytes as the text has characters, whatever the
    configured port. *)
Theorem body_is_ascii (os : host) (P : Z) (r : request) :
  ∃ resp text,
    respond os P r = Some resp ∧
    Py.decode_utf8 (body resp) = Some text ∧
    length (body resp) = String.length text ∧
    Forall (λ b, (Byte.to_N b < 128)%N) (body resp).
Proof.
  unfold respond. rewrite wfile_handle. unfold reply.
  case_decide; rewrite read_answer.
  - eexists _, (health_text P). split; [reflexivity|].
    rewrite body_shaped. unfold health_body. rewrite decode_encode_utf8.
    split; [done|]. apply encode_ascii, all_ascii_health_text.
  - eexists _, (plain_text P). split; [reflexivity|].
    rewrite body_shaped. unfold plain_body. rewrite decode_encode_utf8.
    split; [done|]. apply encode_ascii, all_ascii_plain_text.
Qed.

(** X7.  The answer identifies the configured port: servers configured
    with different ports never give the same response to a request. *)
Theorem response_identifies_port (os : host) (P Q : Z) (r : request) :
  P ≠ Q → respond os P r ≠ respond os Q r.
Proof.
  intros Hne Heq. apply Hne. unfold respond in Heq.
  rewrite !wfile_handle in Heq. unfold reply in Heq.
  case_decide; rewrite !read_answer in Heq;
    apply (inj Some), (f_equal body) in Heq; rewrite !body_shaped in Heq;
    rename Heq into Hbody.
  - apply (f_equal Py.decode_utf8) in Hbody. unfold health_body in Hbody.
    rewrite !decode_encode_utf8 in Hbody.
    apply (inj Some), (f_equal loads) in Hbody.
    rewrite !loads_health in Hbody. by injection Hbody.
  - apply (f_equal Py.decode_utf8) in Hbody. unfold plain_body in Hbody.
    rewrite !decode_encode_utf8 in Hbody.
    apply (inj Some) in Hbody. unfold plain_text in Hbody.
    apply String.app_inj, (f_equal parse_int) in Hbody.
    rewrite !parse_int_str_of_int in Hbody by done. by injection Hbody.
Qed.

Lemma response_identifies_port_witness :
  3300 ≠ 4000 ∧
  respond (Sample.os None) 3300 (Sample.get "/" Sample.noon)
  ≠ respond (Sample.os None) 4000 (Sample.get "/" Sample.noon).
Proof.
  split; [discriminate|].
  apply (response_identifies_port (Sample.os None) 3300 4000
           (Sample.get "/" Sample.noon)).
  discriminate.
Defined.


End Bodies.

Section Runs.
Import Http Json Server Spec.

(** X5.  A run either ends with an exception before it has bound,
    printed or answered anything, or its first effect is to bind
    [0.0.0.0] at the configured port: nothing is printed and no request
    is answered unless the bind has succeeded. *)
Theorem bind_comes_first (os : host) (rs : list connection) :
  (∃ e, main os rs = ([], inl e)) ∨
  (∃ p rest,
     Server.PORT (environ os) = inr p ∧
     main os rs = (Bound "0.0.0.0" p :: rest, inr tt)).
Proof.
  rewrite main_run. destruct (Server.PORT (environ os)) as [e|p].
  - left. by exists e.
  - destruct (negb _); [left; by eexists|].
    destruct (can_bind os p); [|left; by eexists].
    right. by eexists _, _.
Qed.

(** X8.  The numeral the server prints for a port reads back as that
    port: for every port number from 0 to 65535, setting [PORT] to its
    decimal numeral configures that port. *)
Theorem port_numeral_round_trip (environ : gmap string string) (n : Z) :
  0 <= n <= 65535 →
  environ !! "PORT" = Some (Py.str_of_int n) →
  Server.PORT environ = inr n.
Proof.
  intros Hrange Hn. unfold Server.PORT. rewrite Hn. simpl.
  by apply int_of_str_str_of_int, port_is_short.
Qed.

Lemma port_numeral_round_trip_witness :
  0 <= 8080 <= 65535 ∧
  ({["PORT" := "8080"]} : gmap string string) !! "PORT"
  = Some (Py.str_of_int 8080) ∧
  Server.PORT {["PORT" := "8080"]} = inr 8080.
Proof.
  split; [lia|]. split; [reflexivity|].
  apply (port_numeral_round_trip {["PORT" := "8080"]} 8080);
    [lia|reflexivity].
Defined.

End Runs.

(** ** Runs over connections *)

Section Connections.
Import Http Json Server Spec.

(** X4.  A request line of three words whose method is not GET, such as
    a POST, never reaches [do_GET]: the library refuses it with status
    501, and both of its log lines, the error and the request, go
    through the overridden [log_message], so each is printed with the
    tag [[python-basic]]. *)
Theorem unsupported_method (os : host) (P : Z) (c : connection)
    (m t v base : string) (major minor : Z) :
  (N.of_nat (String.length (raw_requestline c)) <= 65536)%N →
  Py.split (Py.rstrip_crlf (raw_requestline c)) = [m; t; v] →
  m ≠ "GET" →
  version_number v = Some (major, minor, base) →
  (2 <? major) || (major =? 2) && (0 <=? minor) = false →
  read_header_lines (header_lines c) 0 = None →
  stdout (handle_one_request os P c)
  = ["[python-basic] code 501, message Unsupported method ("
       +:+ Py.repr m +:+ ")";
     "[python-basic] "
       +:+ String "034" (Py.rstrip_crlf (raw_requestline c)
                           +:+ String "034" " 501 -")] ∧
  status_codes (wfile (handle_one_request os P c))
  = (if decide (v = "HTTP/0.9") then [] else [501]).
Proof.
  intros Hlen Hwords Hm Hver Hlow Hhdr.
  rewrite (dispatch_unsupported os P c m t v base major minor) by done.
  apply (send_error_501 (Some m) (request_path t) v).
Qed.

Lemma unsupported_method_witness :
  stdout (handle_one_request (Sample.os None) 3300
            (Sample.sent "POST /health HTTP/1.1" Sample.noon))
  = ["[python-basic] code 501, message Unsupported method ('POST')";
     "[python-basic] "
       +:+ String "034" ("POST /health HTTP/1.1" +:+ String "034" " 501 -")] ∧
  status_codes
    (wfile (handle_one_request (Sample.os None) 3300
              (Sample.sent "POST /health HTTP/1.1" Sample.noon)))
  = [501].
Proof.
  apply (unsupported_method (Sample.os None) 3300
           (Sample.sent "POST /health HTTP/1.1" Sample.noon)
           "POST" "/health" "HTTP/1.1" "1.1" 1 1).
  - vm_compute. discriminate.
  - reflexivity.
  - discriminate.
  - reflexivity.
  - reflexivity.
  - reflexivity.
Defined.

(** X3.  When every connection carries a GET request the library
    accepts, a run that starts prints the startup line, ending in the
    decimal numeral of the port, and then exactly one line per request,
    in the order of arrival: the tag, the request line between quotes,
    the status 200 and a dash. *)
Theorem run_log (os : host) (cs : list connection) (rs : list request)
    (p : Z) :
  Server.PORT (environ os) = inr p →
  0 <= p <= 65535 →
  can_bind os p = true →
  Forall2 carries cs rs →
  ∃ numeral,
    is_numeral p numeral = true ∧
    printed (fst (main os cs))
    = ("[python-basic] listening on http://localhost:" +:+ numeral)
        :: map (λ r, "[python-basic] "
                       +:+ String "034"
                             (requestline r +:+ String "034" " 200 -")) rs.
Proof.
  intros HP Hrange Hbind Hcs. exists (Py.str_of_int p).
  split; [apply str_of_int_is_numeral|].
  rewrite main_run, HP, port_in_range, Hbind by done.
  change (printed (fst (?a :: Printed ?l :: ?t, ?x))) with (l :: printed t).
  rewrite (printed_served os p cs rs Hcs). f_equal.
  apply map_ext. intros r. unfold access_log, quoted.
  by rewrite (app_cons "034" _ " 200 -"), app_assoc.
Qed.

Lemma run_log_witness :
  ∃ numeral,
    is_numeral 4000 numeral = true ∧
    printed (fst (main (Sample.os (Some "4000"))
                    [Sample.sent "GET /health HTTP/1.1" Sample.noon;
                     Sample.sent "GET /" Sample.later]))
    = ("[python-basic] listening on http://localhost:" +:+ numeral)
        :: map (λ r, "[python-basic] "
                       +:+ String "034"
                             (requestline r +:+ String "034" " 200 -"))
             [Sample.get "/health" Sample.noon;
              Sample.bare "/" Sample.later].
Proof.
  apply (run_log (Sample.os (Some "4000"))
           [Sample.sent "GET /health HTTP/1.1" Sample.noon;
            Sample.sent "GET /" Sample.later]
           [Sample.get "/health" Sample.noon; Sample.bare "/" Sample.later]
           4000).
  - reflexivity.
  - lia.
  - reflexivity.
  - constructor; [|constructor; [|constructor]].
    + split; [vm_compute; discriminate|].
      split; [reflexivity|]. split; [reflexivity|].
      right. split; [reflexivity|]. by exists 1, 1, "1.1".
    + split; [vm_compute; discriminate|].
      split; [reflexivity|]. split; [reflexivity|].
      left. split; reflexivity.
Defined.

End Connections.

(** ** The scenario of the specification: [PORT=4000] *)

Section Scenario.
Import Http Json Server Spec.

Example scenario_health :
  (resp ← respond (Sample.os (Some "4000")) 4000
            (Sample.get "/health" Sample.noon);
   Py.decode_utf8 (body resp))
  = Some ("{" +:+ quoted "ok" +:+ ": true, " +:+ quoted "service" +:+ ": "
              +:+ quoted "python-basic" +:+ ", " +:+ quoted "port"
              +:+ ": 4000}").
Proof. reflexivity. Qed.

Example scenario_foo :
  (resp ← respond (Sample.os (Some "4000")) 4000
            (Sample.get "/foo" Sample.noon);
   Py.decode_utf8 (body resp))
  = Some ("python-basic running on 4000" +:+ String "010" "").
Proof. reflexivity. Qed.

Example scenario_lengths :
  (resp ← respond (Sample.os (Some "7")) 7 (Sample.get "/" Sample.noon);
   header "Content-Length" resp) = Some "26" ∧
  (resp ← respond (Sample.os (Some "65535")) 65535
            (Sample.get "/" Sample.noon);
   header "Content-Length" resp) = Some "30" ∧
  (resp ← respond (Sample.os (Some "7")) 7 (Sample.get "/health" Sample.noon);
   header "Content-Length" resp) = Some "50".
Proof. repeat split. Qed.

Example scenario_unbindable :
  main (Sample.os (Some "70000")) [] = ([], inl Py.OverflowError) ∧
  main {| environ := ∅; python := ""; can_bind := λ _, false |} []
  = ([], inl Py.OSError).
Proof. split; reflexivity. Qed.

(** One run with the port 4000 and three connections: a GET of the
    health path, a GET without a version and a POST. *)
Example scenario_run :
  main (Sample.os (Some "4000"))
    [Sample.sent "GET /health HTTP/1.1" Sample.noon;
     Sample.sent "GET /" Sample.noon;
     Sample.sent "POST / HTTP/1.0" Sample.later]
  = ([Bound "0.0.0.0" 4000;
      Printed "[python-basic] listening on http://localhost:4000";
      Printed ("[python-basic] "
                 +:+ quoted "GET /health HTTP/1.1" +:+ " 200 -");
      Answered
        [StatusLine 200;
         Header "Server" "BaseHTTP/0.6 Python/3.11.2";
         Header "Date" Sample.noon;
         Header "Content-Type" "application/json";
         Header "Content-Length" "53";
         EndHeaders;
         Data (octets ("{" +:+ quoted "ok" +:+ ": true, "
                           +:+ quoted "service" +:+ ": "
                           +:+ quoted "python-basic" +:+ ", "
                           +:+ quoted "port" +:+ ": 4000}"))];
      Printed ("[python-basic] " +:+ quoted "GET /" +:+ " 200 -");
      Answered
        [Data (octets ("python-basic running on 4000" +:+ String "010" ""))];
      Printed
        "[python-basic] code 501, message Unsupported method ('POST')";
      Printed ("[python-basic] " +:+ quoted "POST / HTTP/1.0" +:+ " 501 -");
      Answered
        [StatusLine 501;
         Header "Server" "BaseHTTP/0.6 Python/3.11.2";
         Header "Date" Sample.later;
         Header "Connection" "close";
         Header "Content-Type" "text/html;charset=utf-8";
         Header "Content-Length" "357";
         EndHeaders;
         Data (Py.encode_utf8
                 (error_message_format "501"
                    "Unsupported method ('POST')"
                    "Server does not support this operation"))]],
     inr tt).
Proof. vm_compute. reflexivity. Qed.

(** What the library answers on its own, without calling [do_GET]. *)
Example scenario_refused :
  map (λ l, status_codes
              (wfile (handle_one_request (Sample.os None) 3300
                        (Sample.sent l Sample.noon))))
    ["GET / HTTP/2.0"; "GET / HTTP/1.1 extra"; "GET"; "HEAD / HTTP/1.1";
     "GET / FTP/1.0"; "PUT /"]
  = [[]; []; []; [501]; []; []] ∧
  map (λ l, length (stdout (handle_one_request (Sample.os None) 3300
                              (Sample.sent l Sample.noon))))
    ["GET / HTTP/2.0"; "GET / HTTP/1.1 extra"; "GET"; "HEAD / HTTP/1.1";
     "GET / FTP/1.0"; "PUT /"; ""]
  = [2; 2; 2; 2; 2; 2; 0]%nat.
Proof. split; vm_compute; reflexivity. Qed.

End Scenario.
